(** * DocuMCP backend: a shallow embedding of the document generation core

    The development follows the Python sources of [documcp.backend]:

    - [domain/models.py]            -> the records of section "Domain models";
    - [services/llm_service.py]     -> [LMStudioService] and its methods;
    - [services/document_service.py]-> [DocumentGenerationService];
    - [api/generation.py]           -> the HTTP handler [api_generate_documents];
    - [mcp_server.py]               -> the tool handlers.

    Conventions of the embedding.

    - Text is a [string] of 8-bit characters, read as the code points
      U+0000..U+00FF; [len] is [String.length].
    - Python floats are Rocq's primitive binary64 floats.
    - A coroutine is a computation in the monad [M]: it either returns a
      value or raises an [Exception], and it leaves a trace of the events it
      caused (log records and HTTP requests).  The keyword fields of log
      records are not kept, only their message.
    - The upstream server, the clock and the libraries whose code is not part
      of the repository are oracles: every answer they may give is an
      argument of the function that asks. *)

From Stdlib Require Import PrimFloat Ascii String.
From stdpp Require Import gmap strings list pretty.

Set Warnings "-inexact-float,-register-all".
Open Scope string_scope.

(** * Python strings *)

Module PyStr.

Definition nl : string := String "010"%char "".
Definition dquote : string := String "034"%char "".

(** [str.isspace] on one character, for the code points below U+0100:
    U+0009..U+000D, U+001C..U+0020, U+0085 and U+00A0. *)
Definition isspace (c : ascii) : bool :=
  let n := N_of_ascii c in
  ((9 <=? n) && (n <=? 13) || (28 <=? n) && (n <=? 32)
   || (n =? 133) || (n =? 160))%N.

Fixpoint lstrip_with (p : ascii → bool) (s : string) : string :=
  match s with
  | "" => ""
  | String c s' => if p c then lstrip_with p s' else s
  end.

Fixpoint rstrip_with (p : ascii → bool) (s : string) : string :=
  match s with
  | "" => ""
  | String c s' =>
      match rstrip_with p s' with
      | "" => if p c then "" else String c ""
      | r => String c r
      end
  end.

(** [s.strip()] *)
Definition strip (s : string) : string :=
  lstrip_with isspace (rstrip_with isspace s).

(** [s.rstrip("/")] *)
Definition rstrip_slash (s : string) : string :=
  rstrip_with (λ c, bool_decide (c = "/"%char)) s.

(** [s.replace("_", " ")] *)
Fixpoint replace_underscore (s : string) : string :=
  match s with
  | "" => ""
  | String c s' =>
      String (if bool_decide (c = "_"%char) then " "%char else c)
             (replace_underscore s')
  end.

Definition is_lower (c : ascii) : bool :=
  let n := N_of_ascii c in ((97 <=? n) && (n <=? 122))%N.
Definition is_upper (c : ascii) : bool :=
  let n := N_of_ascii c in ((65 <=? n) && (n <=? 90))%N.
Definition to_upper (c : ascii) : ascii :=
  if is_lower c then ascii_of_N (N_of_ascii c - 32) else c.
Definition to_lower (c : ascii) : ascii :=
  if is_upper c then ascii_of_N (N_of_ascii c + 32) else c.

(** [s.title()] on ASCII letters: a letter that follows a letter is
    lowered, any other letter is raised. *)
Fixpoint title_go (after_letter : bool) (s : string) : string :=
  match s with
  | "" => ""
  | String c s' =>
      let cased := is_lower c || is_upper c in
      String (if after_letter then to_lower c else to_upper c)
             (title_go cased s')
  end.
Definition title (s : string) : string := title_go false s.

(** [str(n)] for an integer *)
Definition str_int (n : Z) : string := pretty n.

(** Truthiness of a string: the empty string is false. *)
Definition truthy (s : string) : bool := negb (bool_decide (s = "")).

(** Every character of the string is white space. *)
Fixpoint all_space (s : string) : Prop :=
  match s with
  | "" => True
  | String c s' => isspace c = true ∧ all_space s'
  end.

Definition first_char (s : string) : option ascii :=
  match s with "" => None | String c _ => Some c end.

Fixpoint last_char (s : string) : option ascii :=
  match s with
  | "" => None
  | String c "" => Some c
  | String _ s' => last_char s'
  end.

(** [c * n] for a one-character string *)
Definition repeat_char (c : ascii) (n : nat) : string :=
  String.string_of_list_ascii (replicate n c).

End PyStr.

Import PyStr.

(** * Exceptions, events and the monad of coroutines *)

(** The classes of exception the sources raise or catch by name, and one
    class for every other exception of a library. *)
Inductive ExceptionClass : Type :=
  | RuntimeError
  | ConnectError        (* httpx.ConnectError *)
  | KeyError
  | IndexError
  | TypeError
  | ValidationError     (* pydantic *)
  | HTTPException (status : Z)   (* fastapi, with its [status_code] *)
  | LibraryError.       (* any other [Exception] *)

(** An exception with the text [str(e)] gives. *)
Record Exception : Type := mkException {
  exc_class : ExceptionClass;
  exc_str : string;
}.

Inductive PyResult (A : Type) : Type :=
  | Ok (a : A)
  | Raise (e : Exception).
Arguments Ok {A} a.
Arguments Raise {A} e.

(** The body of the completion request, the [json=] argument of
    [client.post]. *)
Record ChatMessage : Type := mkChatMessage {
  role : string;
  content_of : string;
}.

Record CompletionPayload : Type := mkCompletionPayload {
  model : string;
  messages : list ChatMessage;
  max_tokens : Z;
  temperature : float;
  stream : bool;
}.

Inductive Event : Type :=
  | LogInfo (msg : string)
  | LogError (msg : string)
  | HttpGet (url : string)
  | HttpPost (url : string) (payload : CompletionPayload).

Definition M (A : Type) : Type := (PyResult A * list Event)%type.

Definition ret {A} (a : A) : M A := (Ok a, []).
Definition raise {A} (e : Exception) : M A := (Raise e, []).
Definition emit (ev : Event) : M unit := (Ok (), [ev]).

Definition bind {A B} (m : M A) (k : A → M B) : M B :=
  match m with
  | (Ok a, tr) => let '(r, tr') := k a in (r, (tr ++ tr')%list)
  | (Raise e, tr) => (Raise e, tr)
  end.

(** [try: m  except Exception as e: h e] *)
Definition try_except {A} (m : M A) (h : Exception → M A) : M A :=
  match m with
  | (Ok a, tr) => (Ok a, tr)
  | (Raise e, tr) => let '(r, tr') := h e in (r, (tr ++ tr')%list)
  end.

Notation "'let*' x := m 'in' k" := (bind m (λ x, k))
  (at level 10, x name, m at level 100, k at level 200, only parsing).
Notation "'run' m 'then' k" := (bind m (λ _, k))
  (at level 10, m at level 100, k at level 200, only parsing).

Definition logger_info (msg : string) : M unit := emit (LogInfo msg).
Definition logger_error (msg : string) : M unit := emit (LogError msg).

(** [asyncio.gather] over the tasks with [return_exceptions=True]: every
    task runs to its end, an exception of a task becomes its entry of the result, and
    the entries are in the order of the tasks.  The trace lists the events
    task by task; the interleaving of the tasks in real time is not
    modelled. *)
Definition gather {A} (tasks : list (M A)) : M (list (PyResult A)) :=
  (Ok (fst <$> tasks), concat (snd <$> tasks)).

(** * Domain models ([domain/models.py]) *)

Inductive DocumentType : Type := PRD | WHAT_IS_THIS | README.

Global Instance DocumentType_eq_dec : EqDecision DocumentType.
Proof. solve_decision. Defined.

(** [DocumentType.value]; the enumeration derives from [str], so that a
    member equals, and hashes as, this string. *)
Definition value (dt : DocumentType) : string :=
  match dt with
  | PRD => "prd"
  | WHAT_IS_THIS => "what_is_this"
  | README => "readme"
  end.

(** Values of type [Any]: JSON data. *)
Inductive Json : Type :=
  | JNull
  | JBool (b : bool)
  | JInt (n : Z)
  | JFloat (x : float)
  | JStr (s : string)
  | JArr (items : list Json)
  | JObj (fields : list (string * Json)).

Record GenerationRequest : Type := mkGenerationRequest {
  input_text : string;
  document_types : list DocumentType;
  project_name : option string;
  additional_context : option (gmap string Json);
}.

Record GeneratedDocument : Type := mkGeneratedDocument {
  document_type : DocumentType;
  content : string;
  metadata : gmap string Json;
}.

Record GenerationResponse : Type := mkGenerationResponse {
  documents : list GeneratedDocument;
  generation_time : float;
  model_info : gmap string string;
}.

(** * The upstream server, as the sources see it *)

(** An [httpx] response whose body, once decoded by [response.json()], has
    type [A]; the decoding may raise. *)
Record Response (A : Type) : Type := mkResponse {
  status_code : Z;
  text : string;
  json : PyResult A;
}.
Arguments mkResponse {A} _ _ _.
Arguments status_code {A} _.
Arguments text {A} _.
Arguments json {A} _.

(** What awaiting [client.get] or [client.post] may give. *)
Inductive HttpOutcome (A : Type) : Type :=
  | Responds (r : Response A)
  | Fails (e : Exception).
Arguments Responds {A} r.
Arguments Fails {A} e.

(** The models listing: a dictionary with an optional ["data"] list of
    dictionaries with an optional ["id"]. *)
Record ModelEntry : Type := mkModelEntry { model_id : option string }.
Record ModelsData : Type := mkModelsData { data : option (list ModelEntry) }.

(** The completion: [result_data["choices"][0]["message"]["content"]],
    where any of the keys may be missing.  A content that is present is
    text: a body whose content is [null] or another value that is no string
    is not in this type. *)
Record ChoiceMessage : Type := mkChoiceMessage { message_content : option string }.
Record Choice : Type := mkChoice { message : option ChoiceMessage }.
Record CompletionData : Type := mkCompletionData { choices : option (list Choice) }.

Definition await {A} (o : HttpOutcome A) : M (Response A) :=
  match o with
  | Responds r => ret r
  | Fails e => raise e
  end.

Definition lift {A} (r : PyResult A) : M A := (r, []).

(** [d[key]] on a dictionary whose entry may be missing. *)
Definition subscript_key {A} (key : string) (entry : option A) : PyResult A :=
  match entry with
  | Some a => Ok a
  | None => Raise (mkException KeyError ("'" ++ key ++ "'"))
  end.

(** [l[i]] on a list. *)
Definition subscript_index {A} (l : list A) (i : nat) : PyResult A :=
  match l !! i with
  | Some a => Ok a
  | None => Raise (mkException IndexError "list index out of range")
  end.

(** * The generation client ([services/llm_service.py]) *)

Record LMStudioService : Type := mkLMStudioService {
  base_url : string;
  model_name : string;
  _model_loaded : bool;
}.

(** [LMStudioService.__init__] *)
Definition new_LMStudioService (base_url model_name : string) : LMStudioService :=
  {| base_url := PyStr.rstrip_slash base_url;
     model_name := model_name;
     _model_loaded := false |}.

Definition default_LMStudioService : LMStudioService :=
  new_LMStudioService "http://localhost:1234" "local-model".

(** [[model["id"] for model in entries]] *)
Fixpoint model_ids (entries : list ModelEntry) : PyResult (list string) :=
  match entries with
  | [] => Ok []
  | entry :: rest =>
      match subscript_key "id" (model_id entry) with
      | Raise e => Raise e
      | Ok i =>
          match model_ids rest with
          | Raise e => Raise e
          | Ok ids => Ok (i :: ids)
          end
      end
  end.

(** The body of the [try] block of [initialize]; it returns the service
    object as the assignments to [self] leave it. *)
Definition initialize_try (self : LMStudioService)
    (answer : HttpOutcome ModelsData) : M LMStudioService :=
  run emit (HttpGet (base_url self ++ "/v1/models")) then
  let* response := await answer in
  if bool_decide (status_code response = 200%Z) then
    let* models_data := lift (json response) in
    let* available_models := lift (model_ids (default [] (data models_data))) in
    match available_models with
    | first :: _ =>
        let* self1 :=
          if bool_decide (model_name self ∈ available_models) then ret self
          else
            run logger_info "Using available model" then
            ret {| base_url := base_url self;
                   model_name := first;
                   _model_loaded := _model_loaded self |} in
        run logger_info "LM Studio connection established" then
        ret {| base_url := base_url self1;
               model_name := model_name self1;
               _model_loaded := true |}
    | [] =>
        run logger_error "No models loaded in LM Studio" then
        raise (mkException RuntimeError "No models loaded in LM Studio")
    end
  else
    run logger_error "Failed to connect to LM Studio" then
    raise (mkException RuntimeError
             ("Failed to connect to LM Studio: "
              ++ PyStr.str_int (status_code response))).

(** The two [except] clauses of [initialize]. *)
Definition initialize_except (self : LMStudioService) (e : Exception)
    : M LMStudioService :=
  match exc_class e with
  | ConnectError =>
      run logger_error
        "Cannot connect to LM Studio. Make sure LM Studio is running on" then
      raise (mkException RuntimeError
               ("Cannot connect to LM Studio at " ++ base_url self))
  | _ =>
      run logger_error "Failed to initialize LM Studio connection" then
      raise e
  end.

(** [LMStudioService.initialize]: the outcome of the call and the service
    object after it.  Every assignment to [self] is followed by no statement
    that raises, so that the object is unchanged when the call raises. *)
Definition initialize (self : LMStudioService)
    (answer : HttpOutcome ModelsData) : M unit * LMStudioService :=
  match
    run logger_info "Initializing LM Studio connection" then
    try_except (initialize_try self answer) (initialize_except self)
  with
  | (Ok self', tr) => ((Ok (), tr), self')
  | (Raise e, tr) => ((Raise e, tr), self)
  end.

Definition is_loaded (self : LMStudioService) : bool := _model_loaded self.

(** [str(b)] for a boolean *)
Definition str_bool (b : bool) : string := if b then "True" else "False".

Definition get_model_info (self : LMStudioService) : gmap string string :=
  <["model_name" := model_name self]>
  (<["loaded" := str_bool (is_loaded self)]>
  (<["service" := "LM Studio"]>
  (<["base_url" := base_url self]> ∅))).

(** The truth value of an optional string: [None] and [""] are false. *)
Definition given (project_name : option string) : option string :=
  match project_name with
  | Some name => if PyStr.truthy name then Some name else None
  | None => None
  end.

Definition prd_sections : string :=
  "Create a well-structured PRD with the following sections:" ++ nl ++
  "1. Overview" ++ nl ++
  "2. Goals & Objectives" ++ nl ++
  "3. System Context" ++ nl ++
  "4. Functional Requirements" ++ nl ++
  "5. Non-Functional Requirements" ++ nl ++
  "6. Deployment" ++ nl ++
  "7. Extensibility" ++ nl ++
  "8. Risks & Mitigation" ++ nl ++
  nl ++
  "Use clear, professional language and include specific technical details where appropriate. Format the output as Markdown." ++ nl ++
  nl ++
  "PRD:".

Definition _get_prd_prompt (self : LMStudioService) (input_text : string)
    (project_name : option string) : string :=
  let project_context :=
    match given project_name with
    | Some name => "for project '" ++ name ++ "'"
    | None => ""
    end in
  "You are a senior product manager. Create a comprehensive Product Requirements Document (PRD) "
  ++ project_context ++ " based on the following description." ++ nl ++
  nl ++
  "Project Description:" ++ nl ++
  input_text ++ nl ++
  nl ++
  prd_sections.

Definition what_is_this_sections : string :=
  "Create a compelling overview with the following sections:" ++ nl ++
  "1. Vision (what this project aims to achieve)" ++ nl ++
  "2. Core Value (why it matters, what problems it solves)" ++ nl ++
  "3. Key Features (main capabilities)" ++ nl ++
  "4. Target Users (who will use this)" ++ nl ++
  "5. Tech Snapshot (high-level technical overview)" ++ nl ++
  "6. Roadmap (future plans)" ++ nl ++
  "7. Success Metrics" ++ nl ++
  nl ++
  "Use an engaging, accessible tone while maintaining technical accuracy. Format the output as Markdown." ++ nl ++
  nl ++
  "What is this:".

Definition _get_what_is_this_prompt (self : LMStudioService)
    (input_text : string) (project_name : option string) : string :=
  let project_context :=
    match given project_name with
    | Some name => "called '" ++ name ++ "'"
    | None => ""
    end in
  "You are a technical writer. Create an engaging " ++ dquote ++ "What is this"
  ++ dquote ++ " overview document "
  ++ project_context ++ " based on the following description." ++ nl ++
  nl ++
  "Project Description:" ++ nl ++
  input_text ++ nl ++
  nl ++
  what_is_this_sections.

Definition readme_sections : string :=
  "Create a helpful README with the following sections:" ++ nl ++
  "1. Project title and brief description" ++ nl ++
  "2. Features" ++ nl ++
  "3. Installation instructions" ++ nl ++
  "4. Usage examples" ++ nl ++
  "5. API documentation (if applicable)" ++ nl ++
  "6. Configuration" ++ nl ++
  "7. Development setup" ++ nl ++
  "8. Contributing guidelines" ++ nl ++
  "9. License" ++ nl ++
  nl ++
  "Use clear, developer-friendly language with practical examples. Format the output as Markdown." ++ nl ++
  nl ++
  "README:".

Definition _get_readme_prompt (self : LMStudioService) (input_text : string)
    (project_name : option string) : string :=
  let project_context :=
    match given project_name with
    | Some name => "# " ++ name ++ nl ++ nl
    | None => ""
    end in
  "You are a developer writing documentation. Create a comprehensive README.md "
  ++ project_context ++ "based on the following description." ++ nl ++
  nl ++
  "Project Description:" ++ nl ++
  input_text ++ nl ++
  nl ++
  readme_sections.

(** The dictionary [prompts] has an entry for each member of the
    enumeration, so that the lookup [prompts[document_type]] is total. *)
Definition _get_generation_prompt (self : LMStudioService)
    (input_text : string) (document_type : DocumentType)
    (project_name : option string) : string :=
  match document_type with
  | PRD => _get_prd_prompt self input_text project_name
  | WHAT_IS_THIS => _get_what_is_this_prompt self input_text project_name
  | README => _get_readme_prompt self input_text project_name
  end.

(** [result_data["choices"][0]["message"]["content"]] *)
Definition first_choice_content (result_data : CompletionData) : PyResult string :=
  match subscript_key "choices" (choices result_data) with
  | Raise e => Raise e
  | Ok cs =>
      match subscript_index cs 0 with
      | Raise e => Raise e
      | Ok choice =>
          match subscript_key "message" (message choice) with
          | Raise e => Raise e
          | Ok msg => subscript_key "content" (message_content msg)
          end
      end
  end.

Definition completion_payload (self : LMStudioService) (prompt : string)
    (max_length : Z) (temperature : float) : CompletionPayload :=
  {| model := model_name self;
     messages := [ {| role := "user"; content_of := prompt |} ];
     max_tokens := max_length;
     temperature := temperature;
     stream := false |}.

(** [LMStudioService.generate_document]; [post] is what the completion
    endpoint answers to a request body. *)
Definition generate_document (self : LMStudioService)
    (post : CompletionPayload → HttpOutcome CompletionData)
    (input_text : string) (document_type : DocumentType)
    (project_name : option string) (max_length : Z) (temperature : float)
    : M string :=
  if negb (is_loaded self) then
    raise (mkException RuntimeError
             "LM Studio not connected. Call initialize() first.")
  else
    let prompt :=
      _get_generation_prompt self input_text document_type project_name in
    try_except
      (let payload := completion_payload self prompt max_length temperature in
       run emit (HttpPost (base_url self ++ "/v1/chat/completions") payload) then
       let* response := await (post payload) in
       if bool_decide (status_code response = 200%Z) then
         let* result_data := lift (json response) in
         let* generated_text := lift (first_choice_content result_data) in
         run logger_info "Document generated successfully" then
         ret (strip generated_text)
       else
         let error_msg :=
           "LM Studio API error: " ++ str_int (status_code response) in
         run logger_error "Error during text generation" then
         raise (mkException RuntimeError error_msg))
      (λ e,
         run logger_error "Error during text generation" then
         raise e).

(** * The orchestrator ([services/document_service.py]) *)

Record DocumentGenerationService : Type := mkDocumentGenerationService {
  llm_service : LMStudioService;
}.

(** The places of the orchestrator that read the clock with [time.time()]:
    the start and the end of [generate_documents], and the metadata of the
    document of a slot. *)
Inductive TimePoint : Type :=
  | StartTime
  | EndTime
  | GeneratedAt (slot : nat).

(** What the world answers during one call of [generate_documents]: the
    completion endpoint, asked from the task of a slot, and the clock. *)
Record World : Type := mkWorld {
  post_completion : nat → CompletionPayload → HttpOutcome CompletionData;
  time_time : TimePoint → float;
}.

(** The dictionaries are keyed by members of a [str] enumeration; a member
    and its [value] are the same key. *)
Definition length_map : gmap string Z :=
  <[value PRD := 3000%Z]>
  (<[value WHAT_IS_THIS := 2500%Z]>
  (<[value README := 2000%Z]> ∅)).

Definition _get_max_length_for_type (document_type : string) : Z :=
  default 2048%Z (length_map !! document_type).

Definition temp_map : gmap string float :=
  <[value PRD := 0.3%float]>
  (<[value WHAT_IS_THIS := 0.7%float]>
  (<[value README := 0.5%float]> ∅)).

Definition _get_temperature_for_type (document_type : string) : float :=
  default 0.7%float (temp_map !! document_type).

Definition json_of_optional_str (s : option string) : Json :=
  match s with
  | Some s => JStr s
  | None => JNull
  end.

Definition len (s : string) : Z := Z.of_nat (String.length s).

(** The truth value of an optional dictionary: [None] and [{}] are false. *)
Definition dict_given {A} (d : option (gmap string A)) : option (gmap string A) :=
  match d with
  | Some m => if bool_decide (size m = 0) then None else Some m
  | None => None
  end.

Definition success_metadata (self : DocumentGenerationService)
    (generated_at : float) (input_text : string)
    (project_name : option string) (content : string) : gmap string Json :=
  <["generated_at" := JFloat generated_at]>
  (<["project_name" := json_of_optional_str project_name]>
  (<["input_length" := JInt (len input_text)]>
  (<["output_length" := JInt (len content)]>
  (<["model" := JStr (model_name (llm_service self))]> ∅)))).

(** [DocumentGenerationService._generate_single_document], as the task of
    slot [slot]. *)
Definition _generate_single_document (self : DocumentGenerationService)
    (w : World) (slot : nat) (input_text : string)
    (document_type : DocumentType) (project_name : option string)
    (additional_context : option (gmap string Json)) : M GeneratedDocument :=
  run logger_info "Generating document" then
  try_except
    (let* content :=
       generate_document (llm_service self) (post_completion w slot)
         input_text document_type project_name
         (_get_max_length_for_type (value document_type))
         (_get_temperature_for_type (value document_type)) in
     let metadata :=
       success_metadata self (time_time w (GeneratedAt slot)) input_text
         project_name content in
     let metadata :=
       match dict_given additional_context with
       | Some ctx => ctx ∪ metadata         (* metadata.update(ctx) *)
       | None => metadata
       end in
     ret {| document_type := document_type;
            content := content;
            metadata := metadata |})
    (λ e,
       run logger_error "Error generating document" then
       raise e).

Definition error_document (doc_type : DocumentType) (result : Exception)
    : GeneratedDocument :=
  {| document_type := doc_type;
     content :=
       "# Error" ++ nl ++ nl ++ "Failed to generate " ++ value doc_type
       ++ ": " ++ exc_str result;
     metadata :=
       <["error" := JBool true]>
       (<["error_message" := JStr (exc_str result)]> ∅) |}.

(** The loop over [enumerate(generated_docs)], from index [i] on, with
    [successful_docs] as accumulated so far. *)
Fixpoint process_results (request : GenerationRequest) (i : nat)
    (generated_docs : list (PyResult GeneratedDocument))
    (successful_docs : list GeneratedDocument) : M (list GeneratedDocument) :=
  match generated_docs with
  | [] => ret successful_docs
  | Raise result :: rest =>
      let* doc_type := lift (subscript_index (document_types request) i) in
      run logger_error "Failed to generate document" then
      process_results request (S i) rest
        (successful_docs ++ [error_document doc_type result])%list
  | Ok result :: rest =>
      process_results request (S i) rest (successful_docs ++ [result])%list
  end.

(** [DocumentGenerationService.generate_documents] *)
Definition generate_documents (self : DocumentGenerationService) (w : World)
    (request : GenerationRequest) : M GenerationResponse :=
  let start_time := time_time w StartTime in
  run logger_info "Starting document generation" then
  let tasks :=
    imap (λ slot doc_type,
            _generate_single_document self w slot (input_text request)
              doc_type (project_name request) (additional_context request))
         (document_types request) in
  let* generated_docs := gather tasks in
  let* successful_docs := process_results request 0 generated_docs [] in
  let generation_time := PrimFloat.sub (time_time w EndTime) start_time in
  run logger_info "Document generation completed" then
  ret {| documents := successful_docs;
         generation_time := generation_time;
         model_info := get_model_info (llm_service self) |}.

(** * The HTTP endpoint ([api/generation.py]) *)

(** [raise HTTPException(status_code=..., detail=...)] *)
Definition http_exception (status : Z) (detail : string) : Exception :=
  mkException (HTTPException status) detail.

(** The handler of [POST /generate], with the document service that the
    dependency [get_document_service] has resolved.  The framework answers
    an [HTTPException] that leaves the handler with a reply of its status. *)
Definition api_generate_documents (request : GenerationRequest)
    (doc_service : DocumentGenerationService) (w : World)
    : M GenerationResponse :=
  try_except
    (run logger_info "Received generation request" then
     (* Validate input *)
     run (if negb (truthy (strip (input_text request))) then
            raise (http_exception 400 "Input text cannot be empty")
          else ret ()) then
     run (if bool_decide (10000 < len (input_text request))%Z then
            raise (http_exception 400
                     "Input text too long (max 10,000 characters)")
          else ret ()) then
     (* Generate documents *)
     let* response := generate_documents doc_service w request in
     run logger_info "Generation completed successfully" then
     ret response)
    (λ e,
       match exc_class e with
       | HTTPException _ => raise e
       | _ =>
           run logger_error "Unexpected error during generation" then
           raise (http_exception 500
                    ("Internal server error: " ++ exc_str e))
       end).

(** The dependency [get_document_service] on the module's global. *)
Definition get_document_service
    (document_service : option DocumentGenerationService)
    : PyResult DocumentGenerationService :=
  match document_service with
  | None => Raise (http_exception 503 "Document service not initialized")
  | Some s => Ok s
  end.

(** * The tool server ([mcp_server.py]) *)

(** [mcp.types.TextContent] *)
Record TextContent : Type := mkTextContent {
  tc_type : string;
  tc_text : string;
}.

Definition text_content (s : string) : TextContent :=
  {| tc_type := "text"; tc_text := s |}.

(** The name of the Python type of a JSON value, as error messages show it. *)
Definition type_name (j : Json) : string :=
  match j with
  | JNull => "NoneType"
  | JBool _ => "bool"
  | JInt _ => "int"
  | JFloat _ => "float"
  | JStr _ => "str"
  | JArr _ => "list"
  | JObj _ => "dict"
  end.

(** The elements a [for] loop sees: those of a list, the characters of a
    string, the keys of a dictionary; any other value is not iterable. *)
Definition iterate (j : Json) : PyResult (list Json) :=
  match j with
  | JArr items => Ok items
  | JStr s => Ok ((λ c, JStr (String c "")) <$> String.list_ascii_of_string s)
  | JObj fields => Ok ((λ kv, JStr (fst kv)) <$> fields)
  | _ =>
      Raise (mkException TypeError
               ("'" ++ type_name j ++ "' object is not iterable"))
  end.

(** The body of the loop "Convert string document types to enum": an entry
    that equals none of the three strings appends nothing. *)
Definition convert_document_type (dt_str : Json) : list DocumentType :=
  match dt_str with
  | JStr s =>
      if bool_decide (s = "prd") then [PRD]
      else if bool_decide (s = "what_is_this") then [WHAT_IS_THIS]
      else if bool_decide (s = "readme") then [README]
      else []
  | _ => []
  end.

Fixpoint convert_document_types (doc_types_str : list Json) : list DocumentType :=
  match doc_types_str with
  | [] => []
  | dt_str :: rest =>
      (convert_document_type dt_str ++ convert_document_types rest)%list
  end.

(** [doc.document_type.value.replace("_", " ").title()] *)
Definition doc_type_name (dt : DocumentType) : string :=
  title (replace_underscore (value dt)).

Definition default_document_types : Json :=
  JArr [JStr "prd"; JStr "what_is_this"; JStr "readme"].

Section ToolServer.

(** Two functions of libraries: the format specification [.2f] of a float,
    and the text of the pydantic error for the fields that fail. *)
Variable format_2f : float → string.
Variable validation_error_str : list (string * Json) → string.

(** The fields of a [GenerationRequest] that pydantic refuses, for the
    keywords the tool handlers pass: [input_text] must be a string and
    [project_name] a string or [None]. *)
Definition invalid_fields (input_text project_name : Json)
    : list (string * Json) :=
  (match input_text with
   | JStr _ => []
   | _ => [("input_text", input_text)]
   end ++
   match project_name with
   | JStr _ | JNull => []
   | _ => [("project_name", project_name)]
   end)%list.

(** [GenerationRequest(input_text=..., document_types=..., project_name=...)];
    [additional_context] takes its default, the empty dictionary. *)
Definition new_GenerationRequest (input_text : Json)
    (document_types : list DocumentType) (project_name : Json)
    : PyResult GenerationRequest :=
  match input_text, project_name with
  | JStr text, JStr name =>
      Ok (mkGenerationRequest text document_types (Some name) (Some ∅))
  | JStr text, JNull =>
      Ok (mkGenerationRequest text document_types None (Some ∅))
  | _, _ =>
      Raise (mkException ValidationError
               (validation_error_str
                  (invalid_fields input_text project_name)))
  end.

(** [arguments.get(key, default)] *)
Definition arguments_get (arguments : gmap string Json) (key : string)
    (default_value : Json) : Json :=
  default default_value (arguments !! key).

Definition render_document (doc : GeneratedDocument) : TextContent :=
  text_content
    ("## " ++ doc_type_name (document_type doc) ++ nl ++ nl
     ++ content doc ++ nl ++ nl ++ "---" ++ nl).

Definition render_summary (response : GenerationResponse) : TextContent :=
  let summary :=
    "Generated " ++ str_int (Z.of_nat (length (documents response)))
    ++ " documents in " ++ format_2f (generation_time response)
    ++ " seconds" in
  text_content
    ("# Document Generation Complete" ++ nl ++ nl ++ summary ++ nl ++ nl).

(** [_handle_generate_documents] *)
Definition _handle_generate_documents
    (document_service : DocumentGenerationService) (w : World)
    (arguments : gmap string Json) : M (list TextContent) :=
  let input_text := arguments_get arguments "input_text" (JStr "") in
  let project_name := arguments_get arguments "project_name" JNull in
  let doc_types_str := arguments_get arguments "document_types" default_document_types in
  let* items := lift (iterate doc_types_str) in
  let doc_types := convert_document_types items in
  let* request :=
    lift (new_GenerationRequest input_text doc_types project_name) in
  let* response := generate_documents document_service w request in
  let results := render_document <$> documents response in
  ret (render_summary response :: results).

(** [_handle_generate_single_document] *)
Definition _handle_generate_single_document
    (document_service : DocumentGenerationService) (w : World)
    (arguments : gmap string Json) (doc_type : DocumentType)
    : M (list TextContent) :=
  let input_text := arguments_get arguments "input_text" (JStr "") in
  let project_name := arguments_get arguments "project_name" JNull in
  let* request :=
    lift (new_GenerationRequest input_text [doc_type] project_name) in
  let* response := generate_documents document_service w request in
  match documents response with
  | doc :: _ => ret [text_content (content doc)]
  | [] => ret [text_content "No document generated"]
  end.

(** The body of the [try] block of [handle_call_tool]. *)
Definition dispatch_tool (document_service : DocumentGenerationService)
    (w : World) (name : string) (arguments : gmap string Json)
    : M (list TextContent) :=
  if bool_decide (name = "generate_documents") then
    _handle_generate_documents document_service w arguments
  else if bool_decide (name = "generate_prd") then
    _handle_generate_single_document document_service w arguments PRD
  else if bool_decide (name = "generate_readme") then
    _handle_generate_single_document document_service w arguments README
  else if bool_decide (name = "generate_overview") then
    _handle_generate_single_document document_service w arguments WHAT_IS_THIS
  else
    ret [text_content ("Unknown tool: " ++ name)].

(** [handle_call_tool], with the module's global [document_service]. *)
Definition handle_call_tool
    (document_service : option DocumentGenerationService) (w : World)
    (name : string) (arguments : gmap string Json) : M (list TextContent) :=
  match document_service with
  | None => ret [text_content "Error: Document service not initialized"]
  | Some service =>
      try_except (dispatch_tool service w name arguments)
        (λ e,
           run logger_error "Error in tool call" then
           ret [text_content ("Error: " ++ exc_str e)])
  end.

End ToolServer.

(** * The rest of the generation client ([services/llm_service.py]) *)

(** [LMStudioService.get_memory_usage] *)
Definition get_memory_usage (self : LMStudioService) : gmap string Json :=
  <["service" := JStr "LM Studio"]>
  (<["local_service" := JBool true]>
  (<["memory_info" := JStr "Managed by LM Studio"]> ∅)).

(** * The rest of the HTTP endpoints ([api/generation.py]) *)

(** The two globals of a front-end module. *)
Record Globals : Type := mkGlobals {
  global_llm_service : option LMStudioService;
  global_document_service : option DocumentGenerationService;
}.

(** The globals of a module before [initialize_services]. *)
Definition no_services : Globals := mkGlobals None None.

(** The dependency [get_llm_service] on the module's global. *)
Definition get_llm_service (llm_service : option LMStudioService)
    : PyResult LMStudioService :=
  match llm_service with
  | None => Raise (http_exception 503 "LLM service not initialized")
  | Some s => Ok s
  end.

(** [HealthResponse] of [domain/models.py] *)
Record HealthResponse : Type := mkHealthResponse {
  health_status : string;
  health_message : string;
  health_model_loaded : bool;
  health_memory_usage : option (gmap string float);
}.

(** [1 if b else 0] *)
Definition int_of_bool (b : bool) : Z := if b then 1%Z else 0%Z.

(** A dictionary of strings as a value of type [Any]. *)
Definition json_of_str_dict (d : gmap string string) : Json :=
  JObj ((λ kv, (fst kv, JStr (snd kv))) <$> map_to_list d).

(** The dictionary that [metrics.update] merges in. *)
Definition memory_metrics (memory_usage : gmap string Json) : gmap string Json :=
  <["memory_allocated_gb" := default (JInt 0) (memory_usage !! "allocated_gb")]>
  (<["memory_reserved_gb" := default (JInt 0) (memory_usage !! "reserved_gb")]>
  (<["memory_max_allocated_gb" :=
       default (JInt 0) (memory_usage !! "max_allocated_gb")]> ∅)).

(** The handler of [GET /metrics], with the client that the dependency
    [get_llm_service] has resolved. *)
Definition metrics (llm_svc : LMStudioService) : M (gmap string Json) :=
  try_except
    (let model_info := get_model_info llm_svc in
     let memory_usage := get_memory_usage llm_svc in
     let metrics : gmap string Json :=
       <["model_loaded" := JInt (int_of_bool (is_loaded llm_svc))]>
       (<["model_info" := json_of_str_dict model_info]> ∅) in
     let metrics :=
       match dict_given (Some memory_usage) with
       | Some memory_usage => memory_metrics memory_usage ∪ metrics
       | None => metrics
       end in
     ret metrics)
    (λ e,
       run logger_error "Error getting metrics" then
       ret (<["error" := JStr (exc_str e)]> ∅)).

Section Health.

(** Two functions of pydantic: the conversion of a value to a float field,
    [None] when it refuses the value, and the text of the error for the
    entries it refuses. *)
Variable as_float : Json → option float.
Variable validation_error_str : list (string * Json) → string.

(** The entries of a dictionary that are no float. *)
Definition not_floats (d : gmap string Json) : list (string * Json) :=
  List.filter (λ kv, negb (bool_decide (is_Some (as_float (snd kv)))))
              (map_to_list d).

(** [HealthResponse(status=..., message=..., model_loaded=...,
    memory_usage=...)], where [memory_usage] is declared
    [Optional[Dict[str, float]]]. *)
Definition new_HealthResponse (status message : string) (model_loaded : bool)
    (memory_usage : option (gmap string Json)) : PyResult HealthResponse :=
  match memory_usage with
  | None => Ok (mkHealthResponse status message model_loaded None)
  | Some d =>
      match not_floats d with
      | [] =>
          Ok (mkHealthResponse status message model_loaded
                (Some (omap as_float d)))
      | refused =>
          Raise (mkException ValidationError (validation_error_str refused))
      end
  end.

(** The handler of [GET /health], with the client that the dependency
    [get_llm_service] has resolved. *)
Definition health_check (llm_svc : LMStudioService) : M HealthResponse :=
  try_except
    (let model_loaded := is_loaded llm_svc in
     let memory_usage :=
       if model_loaded then Some (get_memory_usage llm_svc) else None in
     let status := if model_loaded then "healthy" else "model_not_loaded" in
     let message :=
       if model_loaded then "DocuMCP is running and model is loaded"
       else "DocuMCP is running but model is not loaded" in
     lift (new_HealthResponse status message model_loaded memory_usage))
    (λ e,
       run logger_error "Error in health check" then
       lift (new_HealthResponse "error"
               ("Health check failed: " ++ exc_str e) false None)).

End Health.

(** [initialize_services] of [api/generation.py]: the outcome and the
    globals after it.  The client is assigned to its global before it is
    initialized. *)
Definition api_initialize_services (g : Globals)
    (answer : HttpOutcome ModelsData) : M unit * Globals :=
  match initialize default_LMStudioService answer with
  | ((Ok _, tr), llm) =>
      ((Ok (),
        (LogInfo "Initializing services..." :: tr
         ++ [LogInfo "Services initialized successfully"])%list),
       mkGlobals (Some llm) (Some (mkDocumentGenerationService llm)))
  | ((Raise e, tr), llm) =>
      ((Raise e, LogInfo "Initializing services..." :: tr),
       mkGlobals (Some llm) (global_document_service g))
  end.

(** * The rest of the tool server ([mcp_server.py]) *)

(** [mcp.types.Tool] *)
Record Tool : Type := mkTool {
  tool_name : string;
  tool_description : string;
  inputSchema : Json;
}.

Definition input_text_property : string * Json :=
  ("input_text",
   JObj [("type", JStr "string");
         ("description", JStr "Project description or requirements")]).

Definition project_name_property : string * Json :=
  ("project_name",
   JObj [("type", JStr "string");
         ("description", JStr "Name of the project (optional)")]).

(** The schema of the three tools of one kind. *)
Definition single_document_schema : Json :=
  JObj [("type", JStr "object");
        ("properties", JObj [input_text_property; project_name_property]);
        ("required", JArr [JStr "input_text"])].

(** [handle_list_tools] *)
Definition handle_list_tools : list Tool :=
  [ mkTool "generate_documents"
      "Generate project documentation (PRD, What-is-this, README) from a project description"
      (JObj [("type", JStr "object");
             ("properties",
              JObj [input_text_property;
                    project_name_property;
                    ("document_types",
                     JObj [("type", JStr "array");
                           ("items",
                            JObj [("type", JStr "string");
                                  ("enum",
                                   JArr [JStr "prd"; JStr "what_is_this";
                                         JStr "readme"])]);
                           ("description",
                            JStr "Types of documents to generate (default: all types)");
                           ("default",
                            JArr [JStr "prd"; JStr "what_is_this";
                                  JStr "readme"])])]);
             ("required", JArr [JStr "input_text"])]);
    mkTool "generate_prd"
      "Generate a Product Requirements Document (PRD) from project description"
      single_document_schema;
    mkTool "generate_readme"
      "Generate a README.md file from project description"
      single_document_schema;
    mkTool "generate_overview"
      "Generate a project overview (What-is-this) document from project description"
      single_document_schema ].

(** [mcp.types.PromptArgument], [Prompt], [PromptMessage] and
    [GetPromptResult] *)
Record PromptArgument : Type := mkPromptArgument {
  argument_name : string;
  argument_description : string;
  required : bool;
}.

Record Prompt : Type := mkPrompt {
  prompt_name : string;
  prompt_description : string;
  prompt_arguments : list PromptArgument;
}.

Record PromptMessage : Type := mkPromptMessage {
  message_role : string;
  message_text : TextContent;
}.

Record GetPromptResult : Type := mkGetPromptResult {
  result_description : string;
  result_messages : list PromptMessage;
}.

(** [handle_list_prompts] *)
Definition handle_list_prompts : list Prompt :=
  [ mkPrompt "project_documentation"
      "Generate comprehensive project documentation including PRD, overview, and README"
      [ mkPromptArgument "project_description"
          "Brief description of your project" true;
        mkPromptArgument "project_name" "Name of your project" false ];
    mkPrompt "prd_template"
      "Generate a Product Requirements Document template"
      [ mkPromptArgument "project_description"
          "Project requirements and description" true;
        mkPromptArgument "project_name" "Name of your project" false ] ].

(** What [handle_get_prompt] gives: a result, or a [ValueError] with its
    text. *)
Inductive PromptOutcome : Type :=
  | PromptResult (r : GetPromptResult)
  | PromptValueError (msg : string).

(** [handle_get_prompt] *)
Definition handle_get_prompt (name : string) (arguments : gmap string string)
    : PromptOutcome :=
  if bool_decide (name = "project_documentation") then
    let project_desc := default "" (arguments !! "project_description") in
    let project_name := default "My Project" (arguments !! "project_name") in
    PromptResult
      (mkGetPromptResult "Generate comprehensive project documentation"
         [ mkPromptMessage "user"
             (text_content
                ("Please generate comprehensive documentation for my project '"
                 ++ project_name ++ "'. "
                 ++ "Here's the project description: " ++ project_desc
                 ++ nl ++ nl
                 ++ "I need a complete set of documentation including:" ++ nl
                 ++ "1. Product Requirements Document (PRD)" ++ nl
                 ++ "2. Project Overview (What-is-this)" ++ nl
                 ++ "3. README.md file" ++ nl ++ nl
                 ++ "Use the generate_documents tool to create all three document types.")) ])
  else if bool_decide (name = "prd_template") then
    let project_desc := default "" (arguments !! "project_description") in
    let project_name := default "My Project" (arguments !! "project_name") in
    PromptResult
      (mkGetPromptResult "Generate a Product Requirements Document"
         [ mkPromptMessage "user"
             (text_content
                ("Please generate a Product Requirements Document for '"
                 ++ project_name ++ "'. "
                 ++ "Project description: " ++ project_desc ++ nl ++ nl
                 ++ "Use the generate_prd tool to create a comprehensive PRD.")) ])
  else
    PromptValueError ("Unknown prompt: " ++ name).

(** [initialize_services] of [mcp_server.py]: the outcome and the globals
    after it. *)
Definition mcp_initialize_services (g : Globals)
    (answer : HttpOutcome ModelsData) : M unit * Globals :=
  match initialize default_LMStudioService answer with
  | ((Ok _, tr), llm) =>
      ((Ok (),
        (LogInfo "Initializing DocuMCP services..." :: tr
         ++ [LogInfo "DocuMCP services initialized successfully"])%list),
       mkGlobals (Some llm) (Some (mkDocumentGenerationService llm)))
  | ((Raise e, tr), llm) =>
      ((Raise e,
        (LogInfo "Initializing DocuMCP services..." :: tr
         ++ [LogError "Failed to initialize services"])%list),
       mkGlobals (Some llm) (global_document_service g))
  end.

(** * Observations on traces *)

(** The bodies of the completion requests of a trace, in order. *)
Definition posted (tr : list Event) : list CompletionPayload :=
  omap (λ ev, match ev with HttpPost _ payload => Some payload | _ => None end) tr.

(** The sampling parameters of a request body. *)
Definition sampling (payload : CompletionPayload) : Z * float :=
  (max_tokens payload, temperature payload).

(** The policy of a kind: what [_generate_single_document] passes. *)
Definition policy (dt : DocumentType) : Z * float :=
  (_get_max_length_for_type (value dt), _get_temperature_for_type (value dt)).

(** The section skeleton of the prompt of a kind. *)
Definition sections (dt : DocumentType) : string :=
  match dt with
  | PRD => prd_sections
  | WHAT_IS_THIS => what_is_this_sections
  | README => readme_sections
  end.

(** An entry of the [document_types] argument that the conversion keeps. *)
Definition recognized (dt_str : Json) : bool :=
  match dt_str with
  | JStr s =>
      bool_decide (s = "prd") || bool_decide (s = "what_is_this")
      || bool_decide (s = "readme")
  | _ => false
  end.

(** The task of a slot, as [generate_documents] creates it. *)
Definition task (self : DocumentGenerationService) (w : World)
    (request : GenerationRequest) (slot : nat) (dt : DocumentType)
    : M GeneratedDocument :=
  _generate_single_document self w slot (input_text request) dt
    (project_name request) (additional_context request).

(** The document of a slot, as the loop of [generate_documents] builds it
    from what the task of the slot gave. *)
Definition slot_document (dt : DocumentType)
    (result : PyResult GeneratedDocument) : GeneratedDocument :=
  match result with
  | Ok doc => doc
  | Raise e => error_document dt e
  end.

(** The models endpoint answered the request. *)
Definition reachable (answer : HttpOutcome ModelsData) : Prop :=
  ∃ r, answer = Responds r.

(** The models endpoint answered with a list of no model. *)
Definition lists_no_model (answer : HttpOutcome ModelsData) : Prop :=
  ∃ r d, answer = Responds r ∧ json r = Ok d
         ∧ model_ids (default [] (data d)) = Ok [].

(** [initialize] returned and left the client loaded. *)
Definition initialized (self : LMStudioService)
    (answer : HttpOutcome ModelsData) : Prop :=
  fst (fst (initialize self answer)) = Ok ()
  ∧ is_loaded (snd (initialize self answer)) = true.

(** The handler of [POST /generate] returned a response. *)
Definition accepted (request : GenerationRequest)
    (doc_service : DocumentGenerationService) (w : World) : Prop :=
  ∃ response tr, api_generate_documents request doc_service w = (Ok response, tr).

(** The trace of a request that the handler of [POST /generate] refuses:
    the record of its arrival, and nothing of the orchestrator. *)
Definition refusal_trace : list Event := [LogInfo "Received generation request"].

(** The names of the tools that [handle_list_tools] lists. *)
Definition tool_names : list string :=
  ["generate_documents"; "generate_prd"; "generate_readme"; "generate_overview"].

(** The error of a generation call on a client that is not loaded. *)
Definition not_connected : Exception :=
  mkException RuntimeError "LM Studio not connected. Call initialize() first.".

(** The request body of the task of a kind. *)
Definition task_payload (self : DocumentGenerationService)
    (request : GenerationRequest) (dt : DocumentType) : CompletionPayload :=
  completion_payload (llm_service self)
    (_get_generation_prompt (llm_service self) (input_text request) dt
       (project_name request))
    (_get_max_length_for_type (value dt))
    (_get_temperature_for_type (value dt)).

(** The caller's additional context, the empty dictionary when there is
    none. *)
Definition context_of (request : GenerationRequest) : gmap string Json :=
  default ∅ (additional_context request).

(** Every character of the string is a slash. *)
Fixpoint all_slashes (s : string) : Prop :=
  match s with
  | "" => True
  | String c s' => c = "/"%char ∧ all_slashes s'
  end.

(** The urls of the requests for the models of a trace, in order. *)
Definition got (tr : list Event) : list string :=
  omap (λ ev, match ev with HttpGet url => Some url | _ => None end) tr.

(** The first value of a key in the entries of a dictionary. *)
Fixpoint assoc {A} (key : string) (fields : list (string * A)) : option A :=
  match fields with
  | [] => None
  | (k, v) :: rest => if bool_decide (k = key) then Some v else assoc key rest
  end.

(** [d[key]] on a JSON dictionary, [None] on any other value. *)
Definition json_field (key : string) (j : Json) : option Json :=
  match j with
  | JObj fields => assoc key fields
  | _ => None
  end.

(** The schema of the [document_types] argument of the combined tool, as
    [handle_list_tools] declares it. *)
Definition document_types_schema : option Json :=
  match head handle_list_tools with
  | Some tool =>
      match json_field "properties" (inputSchema tool) with
      | Some properties => json_field "document_types" properties
      | None => None
      end
  | None => None
  end.

(** The strings that the schema allows as entries of [document_types]. *)
Definition schema_enum : list Json :=
  match document_types_schema with
  | Some schema =>
      match json_field "items" schema with
      | Some items =>
          match json_field "enum" items with
          | Some (JArr entries) => entries
          | _ => []
          end
      | None => []
      end
  | None => []
  end.

(** The ids that the models endpoint lists: those of an answer with status
    200 whose body decodes and whose entries all have an id. *)
Definition listed (answer : HttpOutcome ModelsData) : option (list string) :=
  match answer with
  | Responds r =>
      if bool_decide (status_code r = 200%Z) then
        match json r with
        | Ok d =>
            match model_ids (default [] (data d)) with
            | Ok ids => Some ids
            | Raise _ => None
            end
        | Raise _ => None
        end
      else None
  | Fails _ => None
  end.

(** * Example inputs *)

Definition loaded_client : LMStudioService :=
  mkLMStudioService "http://localhost:1234" "local-model" true.

Definition example_service : DocumentGenerationService :=
  mkDocumentGenerationService loaded_client.

(** A completion answer with status 200 whose first choice has the text. *)
Definition completes (generated_text : string) : HttpOutcome CompletionData :=
  Responds
    (mkResponse 200 ""
       (Ok (mkCompletionData
              (Some [mkChoice (Some (mkChoiceMessage (Some generated_text)))])))).

(** A completion answer with a status and a body that is not JSON. *)
Definition answers_error (status : Z) (body : string) : HttpOutcome CompletionData :=
  Responds
    (mkResponse status body (Raise (mkException LibraryError "Expecting value"))).

(** The upstream answers every slot but slot 1, whose request times out. *)
Definition flaky_world : World :=
  {| post_completion := λ slot _,
       if bool_decide (slot = 1)
       then Fails (mkException LibraryError "timed out")
       else completes " # Title ";
     time_time := λ _, 0%float |}.

Definition example_request : GenerationRequest :=
  mkGenerationRequest "A command line tool" [PRD; README; PRD] None (Some ∅).

(** The models endpoint answers with a status and the listed ids. *)
Definition lists_models (status : Z) (ids : list string) : HttpOutcome ModelsData :=
  Responds
    (mkResponse status ""
       (Ok (mkModelsData (Some ((λ i, mkModelEntry (Some i)) <$> ids))))).

(** A request whose input text is one space. *)
Definition blank_request : GenerationRequest :=
  mkGenerationRequest " " [PRD] None (Some ∅).

(** A request whose input text has 20,000 characters. *)
Definition long_request : GenerationRequest :=
  mkGenerationRequest (repeat_char "x" (Z.to_nat 20000)) [PRD] None (Some ∅).

(** Stand-ins for the two library functions of the tool server. *)
Definition example_format_2f : float → string := λ _, "0.00".
Definition example_validation_error_str : list (string * Json) → string :=
  λ fields,
    str_int (Z.of_nat (length fields))
    ++ " validation error for GenerationRequest".

(** The arguments of a tool call whose [input_text] is a number. *)
Definition number_arguments : gmap string Json :=
  <["input_text" := JInt 5]> ∅.

(** The arguments of a call of the combined tool with two entries that are
    no kind. *)
Definition mixed_items : list Json :=
  [JStr "readme"; JStr "changelog"; JInt 3; JStr "prd"; JStr "readme"].
Definition mixed_arguments : gmap string Json :=
  <["input_text" := JStr "A command line tool"]>
  (<["document_types" := JArr mixed_items]> ∅).

(** A stand-in for the conversion of pydantic to a float, which knows
    floats and booleans and refuses every other value. *)
Definition example_as_float (j : Json) : option float :=
  match j with
  | JFloat x => Some x
  | JBool b => Some (if b then 1%float else 0%float)
  | _ => None
  end.

(** A world that answers slot 1 as [flaky_world] does and fails every other
    slot. *)
Definition failing_world : World :=
  {| post_completion := λ slot _,
       if bool_decide (slot = 1)
       then Fails (mkException LibraryError "timed out")
       else Fails (mkException LibraryError "connection reset");
     time_time := λ _, 0%float |}.

(** A request with an additional context that names a model. *)
Definition context_request : GenerationRequest :=
  mkGenerationRequest "A command line tool" [PRD; README] (Some "cli")
    (Some (<["model" := JStr "caller"]> (<["team" := JStr "docs"]> ∅))).

(** An orchestrator over a client that was never initialized. *)
Definition unloaded_service : DocumentGenerationService :=
  mkDocumentGenerationService default_LMStudioService.

(** * Properties *)

Ltac run_monad :=
  cbv [bind ret raise emit lift try_except logger_info logger_error await] in *;
  simpl in *.

(** ** Strings *)

Lemma app_string_cons (x : ascii) (a b : string) :
  String x a ++ b = String x (a ++ b).
Proof. reflexivity. Qed.

Lemma app_string_nil_l (a : string) : "" ++ a = a.
Proof. reflexivity. Qed.

Lemma app_string_assoc (a b c : string) : (a ++ b) ++ c = a ++ (b ++ c).
Proof.
  induction a as [|x a IH]; [done|].
  rewrite !app_string_cons. by rewrite IH.
Qed.

Lemma app_string_nil_r (a : string) : a ++ "" = a.
Proof.
  induction a as [|x a IH]; [done|].
  rewrite app_string_cons. by rewrite IH.
Qed.

(** ** Sampling parameters *)

Lemma length_map_unmapped (k : string) :
  k ≠ value PRD → k ≠ value WHAT_IS_THIS → k ≠ value README →
  length_map !! k = None.
Proof.
  intros H1 H2 H3. unfold length_map.
  rewrite !lookup_insert_ne by done. apply lookup_empty.
Qed.

Lemma temp_map_unmapped (k : string) :
  k ≠ value PRD → k ≠ value WHAT_IS_THIS → k ≠ value README →
  temp_map !! k = None.
Proof.
  intros H1 H2 H3. unfold temp_map.
  rewrite !lookup_insert_ne by done. apply lookup_empty.
Qed.

Lemma posted_app (tr1 tr2 : list Event) :
  posted (tr1 ++ tr2)%list = (posted tr1 ++ posted tr2)%list.
Proof. apply omap_app. Qed.

Lemma posted_cons (ev : Event) (tr : list Event) :
  posted (ev :: tr) = (posted [ev] ++ posted tr)%list.
Proof. apply (posted_app [ev] tr). Qed.

(** A task of a loaded client posts one request, whose sampling
    parameters are the policy of its kind. *)
Lemma single_document_posted self w slot text dt pn ctx :
  is_loaded (llm_service self) = true →
  sampling <$> posted (snd (_generate_single_document self w slot text dt pn ctx))
  = [policy dt].
Proof.
  intros Hl. unfold _generate_single_document, generate_document.
  rewrite Hl. simpl negb. cbv iota.
  run_monad.
  destruct (post_completion w slot _) as [r|e]; simpl; [|done].
  case_bool_decide; simpl; [|done].
  destruct (json r) as [d|e]; simpl; [|done].
  destruct (first_choice_content d) as [c|e]; simpl; done.
Qed.

(** ** The loop over the gathered results *)

Lemma process_results_spec request results :
  ∀ pre suf acc,
    document_types request = (pre ++ suf)%list →
    length results = length suf →
    ∃ tr,
      process_results request (length pre) results acc
      = (Ok (acc ++ zip_with slot_document suf results)%list, tr)
      ∧ posted tr = [].
Proof.
  induction results as [|r results IH]; intros pre suf acc Hty Hlen.
  - destruct suf; [|done]. exists []. simpl. by rewrite app_nil_r.
  - destruct suf as [|dt suf]; [done|].
    destruct (IH (pre ++ [dt])%list suf
                (acc ++ [slot_document dt r])%list) as (tr & Htr & Hp).
    { by rewrite <- app_assoc. }
    { simpl in Hlen. lia. }
    rewrite length_app, Nat.add_1_r in Htr.
    destruct r as [doc|e]; simpl in *.
    + exists tr. rewrite Htr. by rewrite <- app_assoc.
    + unfold subscript_index. rewrite Hty, lookup_app_r, Nat.sub_diag by lia.
      run_monad. rewrite Htr.
      exists (LogError "Failed to generate document" :: tr).
      split; [by rewrite <- app_assoc | done].
Qed.

Lemma zip_with_slot_document (f : nat → DocumentType → M GeneratedDocument)
    (types : list DocumentType) :
  zip_with slot_document types (fst <$> imap f types)
  = imap (λ slot dt, slot_document dt (fst (f slot dt))) types.
Proof.
  apply list_eq. intros i.
  rewrite lookup_zip_with, list_lookup_fmap, !list_lookup_imap.
  by destruct (types !! i).
Qed.

(** [generate_documents] returns, and its documents are those of the slots
    in the order of the request. *)
Lemma generate_documents_spec self w request :
  ∃ tr,
    generate_documents self w request
    = (Ok {| documents :=
               imap (λ slot dt, slot_document dt (fst (task self w request slot dt)))
                    (document_types request);
             generation_time :=
               PrimFloat.sub (time_time w EndTime) (time_time w StartTime);
             model_info := get_model_info (llm_service self) |}, tr)
    ∧ posted tr
      = posted (concat (snd <$> imap (task self w request) (document_types request))).
Proof.
  unfold generate_documents, gather.
  destruct (process_results_spec request
              (fst <$> imap (task self w request) (document_types request))
              [] (document_types request) []) as (tr & Htr & Hp).
  { done. }
  { by rewrite length_fmap, length_imap. }
  simpl in Htr. rewrite zip_with_slot_document in Htr.
  run_monad. unfold task in *. rewrite Htr.
  eexists. split; [reflexivity|].
  rewrite posted_cons, !posted_app, Hp. simpl. by rewrite !app_nil_r.
Qed.

Lemma tasks_posted (types : list DocumentType) :
  ∀ f : nat → DocumentType → M GeneratedDocument,
    (∀ slot dt, sampling <$> posted (snd (f slot dt)) = [policy dt]) →
    sampling <$> posted (concat (snd <$> imap f types)) = policy <$> types.
Proof.
  induction types as [|dt types IH]; intros f Hf; [done|].
  rewrite imap_cons, fmap_cons. simpl concat.
  rewrite posted_app, fmap_app, Hf, (IH (f ∘ S)); [done|].
  intros slot dt'. apply Hf.
Qed.

(** ** One task *)

Lemma single_document_result self w slot text dt pn ctx :
  fst (_generate_single_document self w slot text dt pn ctx)
  = match fst (generate_document (llm_service self) (post_completion w slot)
                 text dt pn (fst (policy dt)) (snd (policy dt))) with
    | Ok c =>
        Ok {| document_type := dt;
              content := c;
              metadata :=
                let metadata :=
                  success_metadata self (time_time w (GeneratedAt slot))
                    text pn c in
                match dict_given ctx with
                | Some ctx => ctx ∪ metadata
                | None => metadata
                end |}
    | Raise e => Raise e
    end.
Proof.
  unfold _generate_single_document, policy. simpl fst. simpl snd.
  destruct (generate_document _ _ _ _ _ _ _) as [[c|e] tr]; by run_monad.
Qed.

Lemma slot_document_type self w request slot dt :
  document_type (slot_document dt (fst (task self w request slot dt))) = dt.
Proof.
  unfold task. rewrite single_document_result.
  by destruct (fst (generate_document _ _ _ _ _ _ _)).
Qed.

Lemma generate_documents_one_per_kind_aux self w request :
  ∃ response tr,
    generate_documents self w request = (Ok response, tr)
    ∧ length (documents response) = length (document_types request).
Proof.
  destruct (generate_documents_spec self w request) as (tr & Heq & _).
  eexists _, tr. split; [exact Heq|]. apply length_imap.
Qed.

(** ** The orchestrator *)

(** C1. For every request, [generate_documents] returns a response that has
    one document for each requested kind, in the order of the request: the
    two lists have the same length and the document at each index has the
    kind requested at that index, whatever the tasks gave. *)
Theorem generate_documents_one_per_kind self w request :
  ∃ response tr,
    generate_documents self w request = (Ok response, tr)
    ∧ length (documents response) = length (document_types request)
    ∧ ∀ i, document_type <$> documents response !! i
           = document_types request !! i.
Proof.
  destruct (generate_documents_spec self w request) as (tr & Heq & _).
  eexists _, tr. split; [exact Heq|]. simpl. split.
  - apply length_imap.
  - intros i. rewrite list_lookup_imap.
    destruct (document_types request !! i) as [dt|]; [|done].
    simpl. f_equal. apply slot_document_type.
Qed.

(** C2. For every request and every slot of it, [generate_documents] does
    not raise; when the call of the generation client for the slot raises,
    the document of the slot has the error text as content and a metadata
    with the error flag and the text of the error; when the call returns,
    the document of the slot has the generated text as content. *)
Theorem failed_generation_is_contained self w request slot dt :
  document_types request !! slot = Some dt →
  ∃ response tr doc,
    generate_documents self w request = (Ok response, tr)
    ∧ documents response !! slot = Some doc
    ∧ document_type doc = dt
    ∧ match fst (generate_document (llm_service self) (post_completion w slot)
                   (input_text request) dt (project_name request)
                   (_get_max_length_for_type (value dt))
                   (_get_temperature_for_type (value dt))) with
      | Raise e =>
          content doc
          = "# Error" ++ nl ++ nl ++ "Failed to generate " ++ value dt
            ++ ": " ++ exc_str e
          ∧ metadata doc !! "error" = Some (JBool true)
          ∧ metadata doc !! "error_message" = Some (JStr (exc_str e))
      | Ok generated_text => content doc = generated_text
      end.
Proof.
  intros Hdt.
  destruct (generate_documents_spec self w request) as (tr & Heq & _).
  eexists _, tr, _. split; [exact Heq|]. simpl.
  rewrite list_lookup_imap, Hdt. simpl. split; [reflexivity|].
  split; [apply slot_document_type|].
  unfold task. rewrite single_document_result. unfold policy. simpl.
  by destruct (fst (generate_document _ _ _ _ _ _ _)).
Qed.

Lemma failed_generation_is_contained_witness :
  ∃ response tr doc,
    generate_documents example_service flaky_world example_request
    = (Ok response, tr)
    ∧ documents response !! 1 = Some doc
    ∧ document_type doc = README
    ∧ content doc
      = "# Error" ++ nl ++ nl ++ "Failed to generate readme: timed out"
    ∧ metadata doc !! "error" = Some (JBool true)
    ∧ metadata doc !! "error_message" = Some (JStr "timed out").
Proof.
  exact (failed_generation_is_contained example_service flaky_world
           example_request 1 README eq_refl).
Defined.

(** C5. The sampling parameters of a kind are constants: 3000 and 0.3 for
    the requirements document, 2500 and 0.7 for the overview, 2000 and 0.5
    for the readme, 2048 and 0.7 for a key that is none of the three; and
    the requests that [generate_documents] posts with a loaded client carry,
    slot by slot, the parameters of the requested kinds, so that two slots
    of the same kind carry the same parameters, whatever the input text. *)
Theorem sampling_parameters_fixed self w request (key : string) :
  is_loaded (llm_service self) = true →
  key ≠ value PRD → key ≠ value WHAT_IS_THIS → key ≠ value README →
  (_get_max_length_for_type (value PRD) = 3000%Z
   ∧ _get_max_length_for_type (value WHAT_IS_THIS) = 2500%Z
   ∧ _get_max_length_for_type (value README) = 2000%Z
   ∧ _get_max_length_for_type key = 2048%Z)
  ∧ (_get_temperature_for_type (value PRD) = 0.3%float
     ∧ _get_temperature_for_type (value WHAT_IS_THIS) = 0.7%float
     ∧ _get_temperature_for_type (value README) = 0.5%float
     ∧ _get_temperature_for_type key = 0.7%float)
  ∧ sampling <$> posted (snd (generate_documents self w request))
    = policy <$> document_types request.
Proof.
  intros Hl H1 H2 H3. split; [|split].
  - repeat split; try reflexivity.
    unfold _get_max_length_for_type. by rewrite length_map_unmapped.
  - repeat split; try reflexivity.
    unfold _get_temperature_for_type. by rewrite temp_map_unmapped.
  - destruct (generate_documents_spec self w request) as (tr & Heq & Hp).
    rewrite Heq. simpl. rewrite Hp. apply tasks_posted.
    intros slot dt. by apply single_document_posted.
Qed.

Lemma sampling_parameters_fixed_witness :
  _get_max_length_for_type "changelog" = 2048%Z
  ∧ _get_temperature_for_type "changelog" = 0.7%float
  ∧ sampling <$> posted (snd (generate_documents example_service flaky_world
                                example_request))
    = [(3000%Z, 0.3%float); (2000%Z, 0.5%float); (3000%Z, 0.3%float)].
Proof.
  pose proof (sampling_parameters_fixed example_service flaky_world
                example_request "changelog" eq_refl) as H.
  destruct H as ((_ & _ & _ & Hlen) & (_ & _ & _ & Htemp) & Hposted);
    [done | done | done |].
  split; [exact Hlen|]. split; [exact Htemp|]. exact Hposted.
Defined.

(** ** Trimming *)

Lemma lstrip_with_split (p : ascii → bool) (s : string) :
  ∃ before, s = before ++ lstrip_with p s
            ∧ (p = isspace → all_space before).
Proof.
  induction s as [|c s (before & Heq & Hsp)]; [by exists ""|].
  simpl. destruct (p c) eqn:Hc.
  - exists (String c before). rewrite app_string_cons, <- Heq.
    split; [done|]. intros ->. simpl. auto.
  - by exists "".
Qed.

Lemma lstrip_with_first (p : ascii → bool) (s : string) (c : ascii) :
  first_char (lstrip_with p s) = Some c → p c = false.
Proof.
  induction s as [|x s IH]; [done|]. simpl.
  destruct (p x) eqn:Hx; [done|]. simpl. by intros [= <-].
Qed.

Lemma last_char_cons (x : ascii) (s : string) :
  last_char (String x s) = match s with "" => Some x | _ => last_char s end.
Proof. by destruct s. Qed.

Lemma lstrip_with_last (p : ascii → bool) (s : string) (c : ascii) :
  last_char (lstrip_with p s) = Some c → last_char s = Some c.
Proof.
  induction s as [|x s IH]; [done|]. simpl lstrip_with.
  destruct (p x); [|done].
  intros H. specialize (IH H). rewrite last_char_cons.
  destruct s; [done | exact IH].
Qed.

Lemma rstrip_with_split (p : ascii → bool) (s : string) :
  ∃ after, s = rstrip_with p s ++ after
           ∧ (p = isspace → all_space after).
Proof.
  induction s as [|c s (after & Heq & Hsp)]; [by exists ""|].
  simpl. destruct (rstrip_with p s) as [|y r] eqn:Hr.
  - rewrite app_string_nil_l in Heq. subst after.
    destruct (p c) eqn:Hc.
    + exists (String c s). split; [done|]. intros ->. simpl. auto.
    + exists s. by rewrite !app_string_cons, app_string_nil_l.
  - exists after. by rewrite app_string_cons, <- Heq.
Qed.

Lemma rstrip_with_last (p : ascii → bool) (s : string) (c : ascii) :
  last_char (rstrip_with p s) = Some c → p c = false.
Proof.
  induction s as [|x s IH]; [done|]. simpl.
  destruct (rstrip_with p s) as [|y r] eqn:Hr.
  - destruct (p x) eqn:Hx; [done|]. simpl. by intros [= <-].
  - rewrite last_char_cons. exact IH.
Qed.

(** [strip] removes white space at both ends, and nothing else. *)
Lemma strip_spec (s : string) :
  (∃ before after,
      s = before ++ strip s ++ after ∧ all_space before ∧ all_space after)
  ∧ (∀ c, first_char (strip s) = Some c → isspace c = false)
  ∧ (∀ c, last_char (strip s) = Some c → isspace c = false).
Proof.
  unfold strip. split; [|split].
  - destruct (rstrip_with_split isspace s) as (after & Ha & Hsa).
    destruct (lstrip_with_split isspace (rstrip_with isspace s))
      as (before & Hb & Hsb).
    exists before, after. split; [|auto].
    rewrite <- app_string_assoc, <- Hb. exact Ha.
  - intros c. apply lstrip_with_first.
  - intros c H. apply lstrip_with_last in H. by apply rstrip_with_last in H.
Qed.

(** ** The generation client *)

(** C4. A generation call on a client that is not loaded raises the
    not-connected error, for every prompt and every sampling parameters,
    and its trace is empty: no request is posted. *)
Theorem generate_before_initialize_fails self post text dt pn
    (max_length : Z) (temperature : float) :
  is_loaded self = false →
  generate_document self post text dt pn max_length temperature
  = (Raise (mkException RuntimeError
              "LM Studio not connected. Call initialize() first."), [])
  ∧ posted (snd (generate_document self post text dt pn max_length temperature))
    = [].
Proof.
  intros Hl. unfold generate_document. rewrite Hl. by split.
Qed.

Lemma generate_before_initialize_fails_witness :
  generate_document default_LMStudioService (λ _, completes "text")
    "A command line tool" PRD None 3000 0.3%float
  = (Raise (mkException RuntimeError
              "LM Studio not connected. Call initialize() first."), []).
Proof.
  exact (proj1 (generate_before_initialize_fails default_LMStudioService
                  (λ _, completes "text") "A command line tool" PRD None
                  3000 0.3%float eq_refl)).
Defined.

Lemma generate_document_loaded self post text dt pn
    (max_length : Z) (temperature : float) r :
  is_loaded self = true →
  post (completion_payload self (_get_generation_prompt self text dt pn)
          max_length temperature) = Responds r →
  fst (generate_document self post text dt pn max_length temperature)
  = if bool_decide (status_code r = 200%Z) then
      match json r with
      | Ok d =>
          match first_choice_content d with
          | Ok c => Ok (strip c)
          | Raise e => Raise e
          end
      | Raise e => Raise e
      end
    else
      Raise (mkException RuntimeError
               ("LM Studio API error: " ++ str_int (status_code r))).
Proof.
  intros Hl Hpost. unfold generate_document. rewrite Hl. simpl negb. cbv iota.
  run_monad. rewrite Hpost. simpl.
  case_bool_decide; simpl; [|done].
  destruct (json r) as [d|e]; simpl; [|done].
  by destruct (first_choice_content d).
Qed.

(** C6, as the code has it. On a loaded client whose completion request is
    answered: a status other than 200 makes the call raise an error whose
    text carries the status, and nothing of the body; status 200 makes the
    call return the content of the message of the first choice without the
    white space at its two ends. *)
Theorem generate_document_outcomes self post text dt pn
    (max_length : Z) (temperature : float) r :
  is_loaded self = true →
  post (completion_payload self (_get_generation_prompt self text dt pn)
          max_length temperature) = Responds r →
  (status_code r ≠ 200%Z →
   fst (generate_document self post text dt pn max_length temperature)
   = Raise (mkException RuntimeError
              ("LM Studio API error: " ++ str_int (status_code r))))
  ∧ (∀ d c,
       status_code r = 200%Z → json r = Ok d →
       first_choice_content d = Ok c →
       ∃ trimmed,
         fst (generate_document self post text dt pn max_length temperature)
         = Ok trimmed
         ∧ (∃ before after,
              c = before ++ trimmed ++ after
              ∧ all_space before ∧ all_space after)
         ∧ (∀ x, first_char trimmed = Some x → isspace x = false)
         ∧ (∀ x, last_char trimmed = Some x → isspace x = false)).
Proof.
  intros Hl Hpost.
  pose proof (generate_document_loaded self post text dt pn max_length
                temperature r Hl Hpost) as Hres.
  split.
  - intros Hst. rewrite Hres. by rewrite bool_decide_eq_false_2.
  - intros d c Hst Hd Hc. exists (strip c).
    rewrite Hres, bool_decide_eq_true_2, Hd, Hc by done.
    split; [done|]. apply strip_spec.
Qed.

Lemma generate_document_outcomes_witness :
  fst (generate_document loaded_client
         (λ _, answers_error 500 "out of memory")
         "A command line tool" PRD None 3000 0.3%float)
  = Raise (mkException RuntimeError "LM Studio API error: 500")
  ∧ fst (generate_document loaded_client (λ _, completes " # Title ")
           "A command line tool" PRD None 3000 0.3%float)
    = Ok "# Title".
Proof.
  split.
  - apply (generate_document_outcomes loaded_client
             (λ _, answers_error 500 "out of memory") "A command line tool"
             PRD None 3000 0.3%float _ eq_refl eq_refl).
    done.
  - destruct (generate_document_outcomes loaded_client
                (λ _, completes " # Title ") "A command line tool"
                PRD None 3000 0.3%float _ eq_refl eq_refl) as [_ H].
    destruct (H _ _ eq_refl eq_refl eq_refl) as (trimmed & Heq & _).
    rewrite Heq. f_equal. vm_compute in Heq. by injection Heq.
Defined.

(** C6, as stated, fails: two answers with status 500 and different bodies
    make the call raise one and the same error, whose text has the status
    only, so that the error does not carry the body. *)
Lemma generation_error_omits_body :
  fst (generate_document loaded_client
         (λ _, answers_error 500 "out of memory")
         "A command line tool" PRD None 3000 0.3%float)
  = Raise (mkException RuntimeError "LM Studio API error: 500")
  ∧ fst (generate_document loaded_client
           (λ _, answers_error 500 "model not found")
           "A command line tool" PRD None 3000 0.3%float)
    = Raise (mkException RuntimeError "LM Studio API error: 500").
Proof. split; reflexivity. Qed.

Lemma initialize_connect_error self e :
  exc_class e = ConnectError →
  ∃ tr,
    initialize self (Fails e)
    = ((Raise (mkException RuntimeError
                 ("Cannot connect to LM Studio at " ++ base_url self)), tr),
       self).
Proof.
  intros Hc. unfold initialize, initialize_try, initialize_except.
  run_monad. rewrite Hc. by eexists.
Qed.

Lemma initialize_error_status self (r : Response ModelsData) :
  status_code r ≠ 200%Z →
  ∃ tr,
    initialize self (Responds r)
    = ((Raise (mkException RuntimeError
                 ("Failed to connect to LM Studio: "
                  ++ str_int (status_code r))), tr),
       self).
Proof.
  intros Hst. unfold initialize, initialize_try, initialize_except.
  run_monad. rewrite bool_decide_eq_false_2 by done. simpl. by eexists.
Qed.

Lemma initialize_listed self (r : Response ModelsData) d ids :
  status_code r = 200%Z → json r = Ok d →
  model_ids (default [] (data d)) = Ok ids →
  ∃ tr,
    initialize self (Responds r)
    = match ids with
      | [] =>
          ((Raise (mkException RuntimeError "No models loaded in LM Studio"),
            tr), self)
      | first :: _ =>
          ((Ok (), tr),
           {| base_url := base_url self;
              model_name :=
                if bool_decide (model_name self ∈ ids) then model_name self
                else first;
              _model_loaded := true |})
      end.
Proof.
  intros Hst Hd Hids. unfold initialize, initialize_try, initialize_except.
  run_monad. rewrite bool_decide_eq_true_2, Hd by done. simpl.
  rewrite Hids. simpl. destruct ids as [|first rest]; simpl.
  - by eexists.
  - case_bool_decide; simpl; by eexists.
Qed.

(** C3, as the code has it. [initialize] raises the cannot-connect error
    when the request for the models fails with [httpx.ConnectError], raises
    the no-model error when the endpoint answers 200 with a list of no
    model, and raises the failed-to-connect error with the status when the
    endpoint answers with another status; in these cases the client is left
    as it was. When
    the endpoint answers 200 with a list that has a model, [initialize]
    returns and leaves the client loaded, with the configured model if it
    is listed and with the first listed model otherwise. *)
Theorem initialize_outcomes self answer :
  (∀ e, answer = Fails e → exc_class e = ConnectError →
        fst (fst (initialize self answer))
        = Raise (mkException RuntimeError
                   ("Cannot connect to LM Studio at " ++ base_url self))
        ∧ snd (initialize self answer) = self)
  ∧ (∀ r d, answer = Responds r → status_code r = 200%Z → json r = Ok d →
            model_ids (default [] (data d)) = Ok [] →
            fst (fst (initialize self answer))
            = Raise (mkException RuntimeError "No models loaded in LM Studio")
            ∧ snd (initialize self answer) = self)
  ∧ (∀ r, answer = Responds r → status_code r ≠ 200%Z →
          fst (fst (initialize self answer))
          = Raise (mkException RuntimeError
                     ("Failed to connect to LM Studio: "
                      ++ str_int (status_code r)))
          ∧ snd (initialize self answer) = self)
  ∧ (∀ r d first rest,
       answer = Responds r → status_code r = 200%Z → json r = Ok d →
       model_ids (default [] (data d)) = Ok (first :: rest) →
       fst (fst (initialize self answer)) = Ok ()
       ∧ is_loaded (snd (initialize self answer)) = true
       ∧ base_url (snd (initialize self answer)) = base_url self
       ∧ model_name (snd (initialize self answer))
         = if bool_decide (model_name self ∈ first :: rest)
           then model_name self else first).
Proof.
  split; [|split; [|split]].
  - intros e -> Hc.
    destruct (initialize_connect_error self e Hc) as [tr ->]. done.
  - intros r d -> Hst Hd Hids.
    destruct (initialize_listed self r d [] Hst Hd Hids) as [tr ->]. done.
  - intros r -> Hst.
    destruct (initialize_error_status self r Hst) as [tr ->]. done.
  - intros r d first rest -> Hst Hd Hids.
    destruct (initialize_listed self r d _ Hst Hd Hids) as [tr ->]. done.
Qed.

Lemma initialize_outcomes_witness :
  fst (fst (initialize default_LMStudioService
              (lists_models 200 ["mistral-7b"; "qwen-2"]))) = Ok ()
  ∧ snd (initialize default_LMStudioService
           (lists_models 200 ["mistral-7b"; "qwen-2"]))
    = mkLMStudioService "http://localhost:1234" "mistral-7b" true.
Proof.
  destruct (initialize_outcomes default_LMStudioService
              (lists_models 200 ["mistral-7b"; "qwen-2"]))
    as (_ & _ & _ & H).
  destruct (H _ _ _ _ eq_refl eq_refl eq_refl eq_refl) as (H1 & _).
  split; [exact H1 | reflexivity].
Defined.

(** C3, as stated, fails: the endpoint answers, and not with an empty list,
    yet [initialize] raises, for the answer has status 503. *)
Lemma initialize_rejects_error_status :
  reachable (lists_models 503 ["local-model"])
  ∧ ¬ lists_no_model (lists_models 503 ["local-model"])
  ∧ ¬ initialized default_LMStudioService (lists_models 503 ["local-model"])
  ∧ fst (fst (initialize default_LMStudioService
                (lists_models 503 ["local-model"])))
    = Raise (mkException RuntimeError "Failed to connect to LM Studio: 503").
Proof.
  split; [by eexists|]. split.
  - intros (r & d & Hr & Hd & Hids). injection Hr as <-.
    simpl in Hd. injection Hd as <-. discriminate Hids.
  - split; [|reflexivity]. intros [H _]. discriminate H.
Qed.

(** ** The HTTP endpoint *)

(** The first event of the orchestrator is the record of its start. *)
Lemma generate_documents_starts self w request :
  ∃ tr, snd (generate_documents self w request)
        = LogInfo "Starting document generation" :: tr.
Proof.
  unfold generate_documents, gather. run_monad.
  destruct (process_results _ _ _ _) as [[docs|e] tr]; simpl; by eexists.
Qed.

Lemma api_generate_documents_eq request svc w :
  ∃ response tr,
    generate_documents svc w request = (Ok response, tr)
    ∧ api_generate_documents request svc w
      = if bool_decide (strip (input_text request) = "") then
          (Raise (http_exception 400 "Input text cannot be empty"),
           refusal_trace)
        else if bool_decide (10000 < len (input_text request))%Z then
          (Raise (http_exception 400
                    "Input text too long (max 10,000 characters)"),
           refusal_trace)
        else
          (Ok response,
           (refusal_trace ++ tr
            ++ [LogInfo "Generation completed successfully"])%list).
Proof.
  destruct (generate_documents_spec svc w request) as (tr & Heq & _).
  eexists _, tr. split; [exact Heq|].
  unfold api_generate_documents, truthy. rewrite Heq. run_monad.
  case_bool_decide; simpl; [done|].
  case_bool_decide; simpl; [done|].
  by rewrite ?app_nil_r.
Qed.

(** C7, as the code has it. The handler of [POST /generate] raises an
    [HTTPException] of status 400 for every request whose input text is
    empty or white space only and for every request whose input text has
    more than 10,000 characters; it returns the response of the orchestrator
    for every other request; and it raises for no request an exception of
    another status than 400, the status 500 being that of unexpected errors.
    The trace of a refusal has neither the record with which the
    orchestrator starts nor a posted request: the orchestrator was not
    called. *)
Theorem generate_endpoint_validation request svc w :
  (strip (input_text request) = "" →
   api_generate_documents request svc w
   = (Raise (http_exception 400 "Input text cannot be empty"), refusal_trace))
  ∧ ((10000 < len (input_text request))%Z →
     ∃ detail,
       api_generate_documents request svc w
       = (Raise (http_exception 400 detail), refusal_trace))
  ∧ (strip (input_text request) ≠ "" →
     (len (input_text request) ≤ 10000)%Z →
     ∃ response tr,
       api_generate_documents request svc w = (Ok response, tr)
       ∧ fst (generate_documents svc w request) = Ok response)
  ∧ (∀ e tr,
       api_generate_documents request svc w = (Raise e, tr) →
       exc_class e = HTTPException 400 ∧ tr = refusal_trace)
  ∧ ((LogInfo "Starting document generation" ∉ refusal_trace)
     ∧ posted refusal_trace = []
     ∧ (∃ tr, snd (generate_documents svc w request)
              = LogInfo "Starting document generation" :: tr)).
Proof.
  destruct (api_generate_documents_eq request svc w)
    as (response & tr & Hgen & Heq).
  rewrite Heq. split; [|split; [|split; [|split]]]; cycle 4.
  { split; [|split; [done | apply generate_documents_starts]].
    intros H. inversion H as [|? ? ? H']; subst. inversion H'. }
  - intros Hs. by rewrite bool_decide_eq_true_2.
  - intros Hl. case_bool_decide; [by eexists|].
    rewrite bool_decide_eq_true_2 by done. by eexists.
  - intros Hs Hl. rewrite bool_decide_eq_false_2 by done.
    rewrite bool_decide_eq_false_2 by lia.
    eexists _, _. split; [reflexivity|]. by rewrite Hgen.
  - intros e tr'. repeat case_bool_decide; intros [= <- <-]; done.
Qed.

Lemma generate_endpoint_validation_witness :
  api_generate_documents long_request example_service flaky_world
  = (Raise (http_exception 400 "Input text too long (max 10,000 characters)"),
     refusal_trace)
  ∧ ∃ response tr,
      api_generate_documents example_request example_service flaky_world
      = (Ok response, tr)
      ∧ fst (generate_documents example_service flaky_world example_request)
        = Ok response.
Proof.
  split.
  - destruct (generate_endpoint_validation long_request example_service
                flaky_world) as (_ & H & _).
    destruct H as [detail Heq]; [by vm_compute|].
    rewrite Heq. vm_compute in Heq. by injection Heq as <-.
  - destruct (generate_endpoint_validation example_request example_service
                flaky_world) as (_ & _ & H & _).
    apply H; [by vm_compute | by vm_compute].
Defined.

(** C7, as stated, fails: an input text of one space has a length between 1
    and 10,000, and the handler refuses it with status 400. *)
Lemma blank_input_is_refused :
  (1 ≤ len (input_text blank_request) ≤ 10000)%Z
  ∧ ¬ accepted blank_request example_service flaky_world
  ∧ api_generate_documents blank_request example_service flaky_world
    = (Raise (http_exception 400 "Input text cannot be empty"), refusal_trace).
Proof.
  split; [by vm_compute|]. split; [|reflexivity].
  intros (response & tr & H). discriminate H.
Qed.

(** ** The prompt builder *)

(** C8. The prompt is a function of the description, the kind and the
    project name alone: it is the same for every state of the client. And
    for each kind there are an opening text and a phrase for each project
    name such that the prompt is the opening, then the phrase when a name is
    given and nothing when none is, then a rest that does not depend on the
    name and ends with the section skeleton of the kind. *)
Theorem prompt_deterministic_and_local kind :
  (∀ self self' description project_name,
     _get_generation_prompt self description kind project_name
     = _get_generation_prompt self' description kind project_name)
  ∧ ∃ (opening : string) (phrase_of : string → string),
      ∀ description, ∃ rest middle,
        rest = middle ++ sections kind
        ∧ ∀ self project_name,
            _get_generation_prompt self description kind project_name
            = opening
              ++ match given project_name with
                 | Some name => phrase_of name
                 | None => ""
                 end
              ++ rest.
Proof.
  split; [by destruct kind|].
  destruct kind.
  - exists
      "You are a senior product manager. Create a comprehensive Product Requirements Document (PRD) ",
      (λ name, "for project '" ++ name ++ "'").
    intros description.
    exists (" based on the following description." ++ nl ++ nl
            ++ "Project Description:" ++ nl ++ description ++ nl ++ nl
            ++ prd_sections),
      (" based on the following description." ++ nl ++ nl
       ++ "Project Description:" ++ nl ++ description ++ nl ++ nl).
    split; [by rewrite !app_string_assoc|].
    intros self project_name. unfold _get_generation_prompt, _get_prd_prompt.
    by destruct (given project_name).
  - exists
      ("You are a technical writer. Create an engaging " ++ dquote
       ++ "What is this" ++ dquote ++ " overview document "),
      (λ name, "called '" ++ name ++ "'").
    intros description.
    exists (" based on the following description." ++ nl ++ nl
            ++ "Project Description:" ++ nl ++ description ++ nl ++ nl
            ++ what_is_this_sections),
      (" based on the following description." ++ nl ++ nl
       ++ "Project Description:" ++ nl ++ description ++ nl ++ nl).
    split; [by rewrite !app_string_assoc|].
    intros self project_name.
    unfold _get_generation_prompt, _get_what_is_this_prompt.
    rewrite !app_string_assoc. by destruct (given project_name).
  - exists
      "You are a developer writing documentation. Create a comprehensive README.md ",
      (λ name, "# " ++ name ++ nl ++ nl).
    intros description.
    exists ("based on the following description." ++ nl ++ nl
            ++ "Project Description:" ++ nl ++ description ++ nl ++ nl
            ++ readme_sections),
      ("based on the following description." ++ nl ++ nl
       ++ "Project Description:" ++ nl ++ description ++ nl ++ nl).
    split; [by rewrite !app_string_assoc|].
    intros self project_name.
    unfold _get_generation_prompt, _get_readme_prompt.
    by destruct (given project_name).
Qed.

(** ** The tool server *)

Lemma handle_call_tool_some format_2f verr service w name arguments :
  handle_call_tool format_2f verr (Some service) w name arguments
  = match dispatch_tool format_2f verr service w name arguments with
    | (Ok texts, tr) => (Ok texts, tr)
    | (Raise e, tr) =>
        (Ok [text_content ("Error: " ++ exc_str e)],
         (tr ++ [LogError "Error in tool call"])%list)
    end.
Proof.
  unfold handle_call_tool.
  by destruct (dispatch_tool _ _ _ _ _ _) as [[texts|e] tr].
Qed.

Lemma dispatch_unknown_tool format_2f verr service w name arguments :
  name ∉ tool_names →
  dispatch_tool format_2f verr service w name arguments
  = (Ok [text_content ("Unknown tool: " ++ name)], []).
Proof.
  intros Hn. unfold dispatch_tool, tool_names in *.
  repeat case_bool_decide; subst; try done; exfalso; apply Hn; set_solver.
Qed.

(** C9. For every tool name and every arguments, [handle_call_tool] returns
    a list of text contents and does not raise. Without a document service
    the list is the one text of the not-initialized error; when the
    execution of the tool raises, it is the one text ["Error: "] followed by
    the text of the exception; for a name that is no tool, it is the one
    text ["Unknown tool: "] followed by the name. *)
Theorem handle_call_tool_never_raises format_2f verr document_service w
    name arguments :
  ∃ texts tr,
    handle_call_tool format_2f verr document_service w name arguments
    = (Ok texts, tr)
    ∧ (document_service = None →
       texts = [text_content "Error: Document service not initialized"])
    ∧ (∀ service e tr',
         document_service = Some service →
         dispatch_tool format_2f verr service w name arguments = (Raise e, tr') →
         texts = [text_content ("Error: " ++ exc_str e)])
    ∧ (∀ service,
         document_service = Some service → name ∉ tool_names →
         texts = [text_content ("Unknown tool: " ++ name)]).
Proof.
  destruct document_service as [service|].
  - rewrite handle_call_tool_some.
    destruct (dispatch_tool _ _ _ _ _ _) as [[texts|e] tr] eqn:Hd.
    + exists texts, tr. split; [done|]. split; [done|]. split.
      * intros ? ? ? [= <-]. by rewrite Hd.
      * intros ? [= <-] Hn.
        rewrite dispatch_unknown_tool in Hd by done. by injection Hd as <- _.
    + eexists _, _. split; [done|]. split; [done|]. split.
      * intros ? ? ? [= <-]. rewrite Hd. by intros [= <- _].
      * intros ? [= <-] Hn.
        by rewrite dispatch_unknown_tool in Hd.
  - eexists _, []. split; [done|]. split; [done|]. split; intros; done.
Qed.

Lemma handle_call_tool_never_raises_witness :
  ∃ texts tr,
    handle_call_tool example_format_2f example_validation_error_str
      (Some example_service) flaky_world "generate_prd" number_arguments
    = (Ok texts, tr)
    ∧ texts
      = [text_content "Error: 1 validation error for GenerationRequest"].
Proof.
  destruct (handle_call_tool_never_raises example_format_2f
              example_validation_error_str (Some example_service) flaky_world
              "generate_prd" number_arguments)
    as (texts & tr & Heq & _ & Hexc & _).
  exists texts, tr. split; [exact Heq|].
  exact (Hexc example_service _ _ eq_refl eq_refl).
Defined.

Lemma convert_recognized (items : list Json) :
  (JStr ∘ value) <$> convert_document_types items = List.filter recognized items.
Proof.
  induction items as [|item items IH]; [done|].
  simpl convert_document_types. rewrite fmap_app, IH. simpl List.filter.
  destruct item as [| | | |s| |]; try done.
  unfold convert_document_type, recognized.
  repeat case_bool_decide; subst; done.
Qed.

Lemma new_GenerationRequest_types verr text types name request :
  new_GenerationRequest verr text types name = Ok request →
  document_types request = types.
Proof.
  unfold new_GenerationRequest.
  destruct text; try done; destruct name; try done; by intros [= <-].
Qed.

(** C10. In a call of the combined tool whose [document_types] argument is
    a list and whose other arguments make a request, the request that goes
    to the orchestrator has for kinds the entries of the list that are
    ["prd"], ["what_is_this"] or ["readme"], in their order; the call does
    not raise, and the number of documents generated is the number of these
    entries. *)
Theorem unrecognized_document_types_are_dropped format_2f verr service w
    arguments items request :
  arguments !! "document_types" = Some (JArr items) →
  new_GenerationRequest verr (arguments_get arguments "input_text" (JStr ""))
    (convert_document_types items)
    (arguments_get arguments "project_name" JNull) = Ok request →
  (JStr ∘ value) <$> document_types request = List.filter recognized items
  ∧ ∃ response tr,
      generate_documents service w request = (Ok response, tr)
      ∧ _handle_generate_documents format_2f verr service w arguments
        = (Ok (render_summary format_2f response
               :: (render_document <$> documents response)), tr)
      ∧ length (documents response) = length (List.filter recognized items).
Proof.
  intros Hargs Hreq.
  pose proof (new_GenerationRequest_types _ _ _ _ _ Hreq) as Hty.
  split; [rewrite Hty; apply convert_recognized|].
  destruct (generate_documents_one_per_kind_aux service w request)
    as (response & tr & Hgen & Hlen).
  exists response, tr. split; [exact Hgen|]. split.
  - unfold _handle_generate_documents, arguments_get in *.
    rewrite Hargs. simpl.
    run_monad. rewrite Hreq, Hgen. simpl. by rewrite ?app_nil_r.
  - rewrite Hlen, Hty, <- convert_recognized. by rewrite length_fmap.
Qed.

Lemma unrecognized_document_types_are_dropped_witness :
  ∃ response tr,
    _handle_generate_documents example_format_2f example_validation_error_str
      example_service flaky_world mixed_arguments
    = (Ok (render_summary example_format_2f response
           :: (render_document <$> documents response)), tr)
    ∧ length (documents response) = 3.
Proof.
  destruct (unrecognized_document_types_are_dropped example_format_2f
              example_validation_error_str example_service flaky_world
              mixed_arguments mixed_items _ eq_refl eq_refl)
    as (_ & response & tr & _ & Heq & Hlen).
  exists response, tr. split; [exact Heq | exact Hlen].
Defined.

(** * Further properties *)

(** ** The orchestrator *)

Lemma posted_tasks (types : list DocumentType) :
  ∀ (f : nat → DocumentType → M GeneratedDocument)
    (h : DocumentType → list CompletionPayload),
    (∀ slot dt, posted (snd (f slot dt)) = h dt) →
    posted (concat (snd <$> imap f types)) = concat (h <$> types).
Proof.
  induction types as [|dt types IH]; intros f h Hf; [done|].
  rewrite imap_cons, !fmap_cons. simpl concat.
  rewrite posted_app, Hf, (IH (f ∘ S) h); [done|].
  intros slot dt'. apply Hf.
Qed.

Lemma concat_singletons {A B} (g : A → B) (l : list A) :
  concat ((λ x, [g x]) <$> l) = g <$> l.
Proof.
  induction l as [|x l IH]; [done|].
  rewrite !fmap_cons. simpl concat. by rewrite IH.
Qed.

Lemma concat_nils {A B} (l : list A) :
  concat ((λ _, @nil B) <$> l) = [].
Proof.
  induction l as [|x l IH]; [done|].
  rewrite fmap_cons. simpl concat. by rewrite IH.
Qed.

Lemma task_unloaded self w request slot dt :
  is_loaded (llm_service self) = false →
  task self w request slot dt
  = (Raise not_connected,
     [LogInfo "Generating document"; LogError "Error generating document"]).
Proof.
  intros Hl. unfold task, _generate_single_document, generate_document.
  by rewrite Hl.
Qed.

(** X1. With a client that is not loaded, [generate_documents] still
    returns: every slot holds the error document of its kind for the
    not-connected error, in the order of the request, and no request is
    posted. *)
Theorem generate_documents_unloaded self w request :
  is_loaded (llm_service self) = false →
  ∃ response tr,
    generate_documents self w request = (Ok response, tr)
    ∧ documents response
      = (λ dt, error_document dt not_connected) <$> document_types request
    ∧ posted tr = [].
Proof.
  intros Hl.
  destruct (generate_documents_spec self w request) as (tr & Heq & Hp).
  eexists _, tr. split; [exact Heq|]. simpl. split.
  - apply list_eq. intros i.
    rewrite list_lookup_imap, list_lookup_fmap.
    destruct (document_types request !! i) as [dt|]; [|done].
    simpl. by rewrite task_unloaded.
  - rewrite Hp, (posted_tasks _ _ (λ _, [])).
    + apply concat_nils.
    + intros slot dt. by rewrite task_unloaded.
Qed.

Lemma generate_documents_unloaded_witness :
  ∃ response tr,
    generate_documents unloaded_service flaky_world example_request
    = (Ok response, tr)
    ∧ documents response
      = [error_document PRD not_connected;
         error_document README not_connected;
         error_document PRD not_connected]
    ∧ posted tr = [].
Proof.
  exact (generate_documents_unloaded unloaded_service flaky_world
           example_request eq_refl).
Defined.

(** X2. A request for no kind is answered with no document: the
    orchestrator returns, and its trace is the two records of its start and
    of its end, without a task and without a posted request. *)
Theorem generate_documents_empty self w request :
  document_types request = [] →
  ∃ response,
    generate_documents self w request
    = (Ok response,
       [LogInfo "Starting document generation";
        LogInfo "Document generation completed"])
    ∧ documents response = []
    ∧ model_info response = get_model_info (llm_service self).
Proof.
  intros Hty. unfold generate_documents, gather. rewrite Hty.
  by eexists.
Qed.

Lemma generate_documents_empty_witness :
  ∃ response,
    generate_documents example_service flaky_world
      (mkGenerationRequest "A command line tool" [] None None)
    = (Ok response,
       [LogInfo "Starting document generation";
        LogInfo "Document generation completed"])
    ∧ documents response = []
    ∧ model_info response = get_model_info loaded_client.
Proof.
  exact (generate_documents_empty example_service flaky_world
           (mkGenerationRequest "A command line tool" [] None None) eq_refl).
Defined.

Lemma single_document_payload self w slot text dt pn ctx :
  is_loaded (llm_service self) = true →
  posted (snd (_generate_single_document self w slot text dt pn ctx))
  = [completion_payload (llm_service self)
       (_get_generation_prompt (llm_service self) text dt pn)
       (_get_max_length_for_type (value dt))
       (_get_temperature_for_type (value dt))].
Proof.
  intros Hl. unfold _generate_single_document, generate_document.
  rewrite Hl. simpl negb. cbv iota.
  run_monad.
  destruct (post_completion w slot _) as [r|e]; simpl; [|done].
  case_bool_decide; simpl; [|done].
  destruct (json r) as [d|e]; simpl; [|done].
  destruct (first_choice_content d) as [c|e]; simpl; done.
Qed.

(** X3. With a loaded client, [generate_documents] posts one request for
    each slot, in the order of the request and whatever the upstream
    answers: the body of the request of a slot names the active model, has
    one user message with the prompt of the kind, the sampling parameters
    of the kind, and no streaming. *)
Theorem posted_request_bodies self w request :
  is_loaded (llm_service self) = true →
  posted (snd (generate_documents self w request))
  = task_payload self request <$> document_types request
  ∧ ∀ payload,
      payload ∈ posted (snd (generate_documents self w request)) →
      model payload = model_name (llm_service self)
      ∧ stream payload = false
      ∧ ∃ prompt, messages payload = [mkChatMessage "user" prompt].
Proof.
  intros Hl.
  assert (posted (snd (generate_documents self w request))
          = task_payload self request <$> document_types request) as Heq.
  { destruct (generate_documents_spec self w request) as (tr & Heq & Hp).
    rewrite Heq. simpl. rewrite Hp.
    rewrite (posted_tasks _ _ (λ dt, [task_payload self request dt])).
    - apply concat_singletons.
    - intros slot dt. unfold task. by apply single_document_payload. }
  split; [exact Heq|].
  intros payload. rewrite Heq. intros (dt & -> & _)%list_elem_of_fmap.
  simpl. eauto.
Qed.

Lemma posted_request_bodies_witness :
  posted (snd (generate_documents example_service failing_world
                 example_request))
  = [task_payload example_service example_request PRD;
     task_payload example_service example_request README;
     task_payload example_service example_request PRD].
Proof.
  exact (proj1 (posted_request_bodies example_service failing_world
                  example_request eq_refl)).
Defined.

Lemma merged_metadata_lookup (ctx : option (gmap string Json))
    (metadata : gmap string Json) (key : string) :
  match dict_given ctx with
  | Some c => c ∪ metadata
  | None => metadata
  end !! key
  = match default ∅ ctx !! key with
    | Some v => Some v
    | None => metadata !! key
    end.
Proof.
  destruct ctx as [c|]; simpl; [|by rewrite lookup_empty].
  case_bool_decide as Hsz.
  - apply map_size_empty_inv in Hsz. subst c. by rewrite lookup_empty.
  - destruct (c !! key) as [v|] eqn:Hc.
    + by apply lookup_union_Some_l.
    + by apply lookup_union_r.
Qed.

(** X4. The metadata of the document of a slot whose generation returned
    is the caller's additional context laid over the generated fields: a key
    of the context has the value of the context, also when it is one of the
    generated keys such as ["model"], and every other key has its generated
    value. *)
Theorem success_metadata_merge self w request slot dt generated_text :
  document_types request !! slot = Some dt →
  fst (generate_document (llm_service self) (post_completion w slot)
         (input_text request) dt (project_name request)
         (_get_max_length_for_type (value dt))
         (_get_temperature_for_type (value dt))) = Ok generated_text →
  ∃ response tr doc,
    generate_documents self w request = (Ok response, tr)
    ∧ documents response !! slot = Some doc
    ∧ content doc = generated_text
    ∧ (∀ key v, context_of request !! key = Some v →
                metadata doc !! key = Some v)
    ∧ (∀ key, context_of request !! key = None →
              metadata doc !! key
              = success_metadata self (time_time w (GeneratedAt slot))
                  (input_text request) (project_name request)
                  generated_text !! key).
Proof.
  intros Hdt Hgen.
  destruct (generate_documents_spec self w request) as (tr & Heq & _).
  eexists _, tr, _. split; [exact Heq|]. simpl.
  rewrite list_lookup_imap, Hdt. simpl. split; [reflexivity|].
  unfold task. rewrite single_document_result. unfold policy. simpl.
  rewrite Hgen. simpl. split; [done|].
  unfold context_of. split.
  - intros key v Hk. by rewrite merged_metadata_lookup, Hk.
  - intros key Hk. by rewrite merged_metadata_lookup, Hk.
Qed.

Lemma success_metadata_merge_witness :
  ∃ response tr doc,
    generate_documents example_service flaky_world context_request
    = (Ok response, tr)
    ∧ documents response !! 0 = Some doc
    ∧ content doc = "# Title"
    ∧ metadata doc !! "model" = Some (JStr "caller")
    ∧ metadata doc !! "team" = Some (JStr "docs")
    ∧ metadata doc !! "output_length" = Some (JInt 7)
    ∧ metadata doc !! "project_name" = Some (JStr "cli").
Proof.
  destruct (success_metadata_merge example_service flaky_world
              context_request 0 PRD "# Title" eq_refl eq_refl)
    as (response & tr & doc & Heq & Hdoc & Hc & Hctx & Hgen).
  exists response, tr, doc.
  split; [exact Heq|]. split; [exact Hdoc|]. split; [exact Hc|].
  split; [by apply Hctx|]. split; [by apply Hctx|].
  split; [by rewrite Hgen | by rewrite Hgen].
Defined.

(** X5. The metadata of the document of a slot whose generation raised has
    the two keys of the error and no other: neither the caller's additional
    context nor the generated fields are in it. *)
Theorem error_metadata_drops_context self w request slot dt e :
  document_types request !! slot = Some dt →
  fst (generate_document (llm_service self) (post_completion w slot)
         (input_text request) dt (project_name request)
         (_get_max_length_for_type (value dt))
         (_get_temperature_for_type (value dt))) = Raise e →
  ∃ response tr doc,
    generate_documents self w request = (Ok response, tr)
    ∧ documents response !! slot = Some doc
    ∧ dom (metadata doc) = {["error"; "error_message"]}
    ∧ ∀ key, key ≠ "error" → key ≠ "error_message" →
             metadata doc !! key = None.
Proof.
  intros Hdt Hgen.
  destruct (generate_documents_spec self w request) as (tr & Heq & _).
  eexists _, tr, _. split; [exact Heq|]. simpl.
  rewrite list_lookup_imap, Hdt. simpl. split; [reflexivity|].
  unfold task. rewrite single_document_result. unfold policy. simpl.
  rewrite Hgen. simpl. split.
  - rewrite !dom_insert_L, dom_empty_L. set_solver.
  - intros key H1 H2. by rewrite !lookup_insert_ne, lookup_empty.
Qed.

Lemma error_metadata_drops_context_witness :
  ∃ response tr doc,
    generate_documents example_service failing_world context_request
    = (Ok response, tr)
    ∧ documents response !! 1 = Some doc
    ∧ metadata doc !! "team" = None
    ∧ metadata doc !! "model" = None.
Proof.
  destruct (error_metadata_drops_context example_service failing_world
              context_request 1 README
              (mkException LibraryError "timed out") eq_refl eq_refl)
    as (response & tr & doc & Heq & Hdoc & _ & Hno).
  exists response, tr, doc.
  split; [exact Heq|]. split; [exact Hdoc|].
  split; by apply Hno.
Defined.

Lemma generate_document_ext self post1 post2 text dt pn
    (max_length : Z) (temperature : float) :
  (∀ payload, post1 payload = post2 payload) →
  generate_document self post1 text dt pn max_length temperature
  = generate_document self post2 text dt pn max_length temperature.
Proof.
  intros Hp. unfold generate_document. by rewrite Hp.
Qed.

(** X6. The document of a slot depends on the upstream through the answer
    to the request of that slot and through the clock of that slot only:
    two worlds that agree on them give the same document at the slot,
    whatever the other slots are answered. *)
Theorem slots_are_isolated self w1 w2 request slot :
  (∀ payload, post_completion w1 slot payload = post_completion w2 slot payload) →
  time_time w1 (GeneratedAt slot) = time_time w2 (GeneratedAt slot) →
  ∃ response1 tr1 response2 tr2,
    generate_documents self w1 request = (Ok response1, tr1)
    ∧ generate_documents self w2 request = (Ok response2, tr2)
    ∧ documents response1 !! slot = documents response2 !! slot.
Proof.
  intros Hpost Htime.
  destruct (generate_documents_spec self w1 request) as (tr1 & Heq1 & _).
  destruct (generate_documents_spec self w2 request) as (tr2 & Heq2 & _).
  eexists _, tr1, _, tr2. split; [exact Heq1|]. split; [exact Heq2|].
  simpl. rewrite !list_lookup_imap.
  destruct (document_types request !! slot) as [dt|]; [|done].
  simpl. do 2 f_equal. unfold task.
  rewrite !single_document_result, Htime.
  by rewrite (generate_document_ext _ _ _ _ _ _ _ _ Hpost).
Qed.

Lemma slots_are_isolated_witness :
  ∃ response1 tr1 response2 tr2,
    generate_documents example_service flaky_world example_request
    = (Ok response1, tr1)
    ∧ generate_documents example_service failing_world example_request
      = (Ok response2, tr2)
    ∧ documents response1 !! 1 = documents response2 !! 1.
Proof.
  exact (slots_are_isolated example_service flaky_world failing_world
           example_request 1 (λ _, eq_refl) eq_refl).
Defined.

(** ** The generation client *)

Lemma initialize_cases self answer :
  match listed answer with
  | Some (first :: rest) =>
      ∃ tr,
        initialize self answer
        = ((Ok (), tr),
           {| base_url := base_url self;
              model_name :=
                if bool_decide (model_name self ∈ first :: rest)
                then model_name self else first;
              _model_loaded := true |})
  | _ => ∃ e tr, initialize self answer = ((Raise e, tr), self)
  end.
Proof.
  unfold listed. destruct answer as [r|e].
  - case_bool_decide as Hst.
    + destruct (json r) as [d|e] eqn:Hd.
      * destruct (model_ids (default [] (data d))) as [ids|e] eqn:Hids.
        -- destruct (initialize_listed self r d ids Hst Hd Hids) as [tr Heq].
           destruct ids; eauto.
        -- unfold initialize, initialize_try, initialize_except. run_monad.
           rewrite bool_decide_eq_true_2, Hd by done. simpl. rewrite Hids.
           simpl. destruct (exc_class e); simpl; eauto.
      * unfold initialize, initialize_try, initialize_except. run_monad.
        rewrite bool_decide_eq_true_2, Hd by done. simpl.
        destruct (exc_class e); simpl; eauto.
    + destruct (initialize_error_status self r Hst) as [tr Heq]. eauto.
  - unfold initialize, initialize_try, initialize_except. run_monad.
    destruct (exc_class e); simpl; eauto.
Qed.

(** X7. Whatever the models endpoint answers, [initialize] keeps the base
    url of the client; when it raises, the client is exactly as it was,
    loaded flag and model included; when it returns, the client is loaded
    and its active model is one of the ids the endpoint listed, the
    configured one if that is listed. *)
Theorem initialize_keeps_or_loads self answer :
  base_url (snd (initialize self answer)) = base_url self
  ∧ match fst (fst (initialize self answer)) with
    | Raise _ => snd (initialize self answer) = self
    | Ok _ =>
        is_loaded (snd (initialize self answer)) = true
        ∧ ∃ ids,
            listed answer = Some ids
            ∧ model_name (snd (initialize self answer)) ∈ ids
            ∧ (model_name self ∈ ids →
               model_name (snd (initialize self answer)) = model_name self)
    end.
Proof.
  pose proof (initialize_cases self answer) as H.
  destruct (listed answer) as [[|first rest]|].
  - destruct H as (e & tr & ->). done.
  - destruct H as (tr & ->). simpl. split; [done|]. split; [done|].
    exists (first :: rest). split; [done|].
    case_bool_decide; split; try done. set_solver.
  - destruct H as (e & tr & ->). done.
Qed.

(** X8. A second [initialize] that gets the answer of a first one that
    returned, returns too and leaves the client as the first one left it:
    the active model is not substituted again. *)
Theorem initialize_twice self answer :
  fst (fst (initialize self answer)) = Ok () →
  fst (fst (initialize (snd (initialize self answer)) answer)) = Ok ()
  ∧ snd (initialize (snd (initialize self answer)) answer)
    = snd (initialize self answer).
Proof.
  intros Hok.
  pose proof (initialize_cases self answer) as H1.
  pose proof (initialize_cases (snd (initialize self answer)) answer) as H2.
  destruct (listed answer) as [[|first rest]|].
  - destruct H1 as (e & tr & Heq). by rewrite Heq in Hok.
  - destruct H1 as (tr1 & Heq1). destruct H2 as (tr2 & Heq2).
    rewrite Heq2. rewrite Heq1. simpl. split; [done|].
    f_equal.
    destruct (bool_decide (model_name self ∈ first :: rest)) eqn:Hin.
    + apply bool_decide_eq_true in Hin. by rewrite bool_decide_eq_true_2.
    + rewrite bool_decide_eq_true_2; [done | set_solver].
  - destruct H1 as (e & tr & Heq). by rewrite Heq in Hok.
Qed.

Lemma initialize_twice_witness :
  snd (initialize
         (snd (initialize default_LMStudioService
                 (lists_models 200 ["mistral-7b"; "qwen-2"])))
         (lists_models 200 ["mistral-7b"; "qwen-2"]))
  = mkLMStudioService "http://localhost:1234" "mistral-7b" true.
Proof.
  exact (proj2 (initialize_twice default_LMStudioService
                  (lists_models 200 ["mistral-7b"; "qwen-2"]) eq_refl)).
Defined.

Lemma model_ids_missing (entries : list ModelEntry) :
  (∃ entry, entry ∈ entries ∧ model_id entry = None) →
  model_ids entries = Raise (mkException KeyError "'id'").
Proof.
  intros (entry & Hin & Hno).
  induction entries as [|x entries IH]; [by apply not_elem_of_nil in Hin|].
  simpl. destruct (model_id x) as [i|] eqn:Hx; simpl; [|done].
  apply elem_of_cons in Hin as [->|Hin]; [congruence|].
  by rewrite IH.
Qed.

(** X9. What [initialize] does with a listing that is not as expected, on
    an answer of status 200: a body without ["data"] counts as a list of no
    model and raises the no-model error; an entry without ["id"] raises the
    [KeyError] of that key; and an exception of the decoding of the body,
    like an exception of the request that is no [ConnectError], leaves
    [initialize] as it is, without being turned into a [RuntimeError]. In
    each case the client is left as it was. *)
Theorem initialize_unexpected_answers self :
  (∀ r d, status_code r = 200%Z → json r = Ok d → data d = None →
          fst (fst (initialize self (Responds r)))
          = Raise (mkException RuntimeError "No models loaded in LM Studio")
          ∧ snd (initialize self (Responds r)) = self)
  ∧ (∀ r d entries entry,
       status_code r = 200%Z → json r = Ok d → data d = Some entries →
       entry ∈ entries → model_id entry = None →
       fst (fst (initialize self (Responds r)))
       = Raise (mkException KeyError "'id'")
       ∧ snd (initialize self (Responds r)) = self)
  ∧ (∀ r e, status_code r = 200%Z → json r = Raise e →
            exc_class e ≠ ConnectError →
            fst (fst (initialize self (Responds r))) = Raise e
            ∧ snd (initialize self (Responds r)) = self)
  ∧ (∀ e, exc_class e ≠ ConnectError →
          fst (fst (initialize self (Fails e))) = Raise e
          ∧ snd (initialize self (Fails e)) = self).
Proof.
  split; [|split; [|split]].
  - intros r d Hst Hd Hdata.
    destruct (initialize_listed self r d [] Hst Hd) as [tr ->]; [|done].
    by rewrite Hdata.
  - intros r d entries entry Hst Hd Hdata Hin Hno.
    unfold initialize, initialize_try, initialize_except. run_monad.
    rewrite bool_decide_eq_true_2, Hd by done. simpl. rewrite Hdata. simpl.
    rewrite (model_ids_missing entries) by eauto. done.
  - intros r e Hst Hd Hc.
    unfold initialize, initialize_try, initialize_except. run_monad.
    rewrite bool_decide_eq_true_2, Hd by done. simpl.
    by destruct (exc_class e).
  - intros e Hc.
    unfold initialize, initialize_try, initialize_except. run_monad.
    by destruct (exc_class e).
Qed.

Lemma initialize_unexpected_answers_witness :
  fst (fst (initialize default_LMStudioService
              (Responds (mkResponse 200 "{}" (Ok (mkModelsData None))))))
  = Raise (mkException RuntimeError "No models loaded in LM Studio")
  ∧ fst (fst (initialize default_LMStudioService
                (Fails (mkException LibraryError "timed out"))))
    = Raise (mkException LibraryError "timed out").
Proof.
  destruct (initialize_unexpected_answers default_LMStudioService)
    as (H1 & _ & _ & H4).
  split.
  - exact (proj1 (H1 (mkResponse 200 "{}" (Ok (mkModelsData None))) _
                    eq_refl eq_refl eq_refl)).
  - apply H4. done.
Defined.

(** X10. [initialize] asks the models endpoint once, at the base url of
    the client followed by ["/v1/models"], and posts nothing, whatever it
    is answered. *)
Theorem initialize_one_request self answer :
  got (snd (fst (initialize self answer))) = [base_url self ++ "/v1/models"]
  ∧ posted (snd (fst (initialize self answer))) = [].
Proof.
  unfold initialize, initialize_try, initialize_except. run_monad.
  destruct answer as [r|e]; simpl.
  - case_bool_decide; simpl; [|done].
    destruct (json r) as [d|e]; simpl.
    + destruct (model_ids _) as [[|first rest]|e]; simpl.
      * done.
      * by case_bool_decide.
      * by destruct (exc_class e).
    + by destruct (exc_class e).
  - by destruct (exc_class e).
Qed.

Lemma rstrip_slash_split (s : string) :
  ∃ slashes, s = rstrip_slash s ++ slashes ∧ all_slashes slashes.
Proof.
  unfold rstrip_slash.
  induction s as [|c s (slashes & Heq & Hsl)]; [by exists ""|].
  simpl. destruct (rstrip_with _ s) as [|y r] eqn:Hr.
  - rewrite app_string_nil_l in Heq. subst slashes.
    case_bool_decide as Hc.
    + exists (String c s). by split.
    + exists s. by rewrite !app_string_cons, app_string_nil_l.
  - exists slashes. by rewrite app_string_cons, <- Heq.
Qed.

(** X11. A new client is not loaded, has the model name it is given, and
    has for base url the url it is given without its trailing slashes:
    what is removed is slashes only, and what is left does not end with a
    slash. *)
Theorem new_client_base_url (url name : string) :
  is_loaded (new_LMStudioService url name) = false
  ∧ model_name (new_LMStudioService url name) = name
  ∧ last_char (base_url (new_LMStudioService url name)) ≠ Some "/"%char
  ∧ ∃ slashes,
      url = base_url (new_LMStudioService url name) ++ slashes
      ∧ all_slashes slashes.
Proof.
  split; [done|]. split; [done|]. split.
  - simpl. unfold rstrip_slash. intros H.
    apply rstrip_with_last in H. by rewrite bool_decide_eq_true_2 in H.
  - apply rstrip_slash_split.
Qed.

(** X12. A generation call on a loaded client posts one request, the
    first event of its trace, to the base url followed by
    ["/v1/chat/completions"], and none after it, whatever the answer is:
    a failed call is not tried again. *)
Theorem generate_document_one_request self post text dt pn
    (max_length : Z) (temperature : float) :
  is_loaded self = true →
  ∃ tr,
    snd (generate_document self post text dt pn max_length temperature)
    = HttpPost (base_url self ++ "/v1/chat/completions")
        (completion_payload self (_get_generation_prompt self text dt pn)
           max_length temperature) :: tr
    ∧ posted tr = [] ∧ got tr = [].
Proof.
  intros Hl. unfold generate_document. rewrite Hl. simpl negb. cbv iota.
  run_monad.
  destruct (post _) as [r|e]; simpl; [|by eexists].
  case_bool_decide; simpl; [|by eexists].
  destruct (json r) as [d|e]; simpl; [|by eexists].
  destruct (first_choice_content d) as [c|e]; simpl; by eexists.
Qed.

Lemma generate_document_one_request_witness :
  ∃ tr,
    snd (generate_document loaded_client
           (λ _, answers_error 500 "out of memory")
           "A command line tool" PRD None 3000 0.3%float)
    = HttpPost "http://localhost:1234/v1/chat/completions"
        (completion_payload loaded_client
           (_get_generation_prompt loaded_client "A command line tool" PRD None)
           3000 0.3%float) :: tr
    ∧ posted tr = [] ∧ got tr = [].
Proof.
  exact (generate_document_one_request loaded_client
           (λ _, answers_error 500 "out of memory")
           "A command line tool" PRD None 3000 0.3%float eq_refl).
Defined.

(** X13. What a generation call on a loaded client does with an answer
    that lacks what it reads: an exception of the request, and on status 200
    an exception of the decoding of the body, are raised as they are; on
    status 200, a body without ["choices"] raises the [KeyError] of that
    key, a body with an empty list of choices raises the [IndexError] of the
    index, and a first choice without ["message"], or with a message without
    ["content"], raises the [KeyError] of the missing key. *)
Theorem generate_document_unexpected_answers self post text dt pn
    (max_length : Z) (temperature : float) :
  is_loaded self = true →
  let answer :=
    post (completion_payload self (_get_generation_prompt self text dt pn)
            max_length temperature) in
  let result :=
    fst (generate_document self post text dt pn max_length temperature) in
  (∀ e, answer = Fails e → result = Raise e)
  ∧ (∀ r e, answer = Responds r → status_code r = 200%Z →
            json r = Raise e → result = Raise e)
  ∧ (∀ r d, answer = Responds r → status_code r = 200%Z → json r = Ok d →
       (choices d = None →
        result = Raise (mkException KeyError "'choices'"))
       ∧ (choices d = Some [] →
          result = Raise (mkException IndexError "list index out of range"))
       ∧ (∀ choice rest,
            choices d = Some (choice :: rest) → message choice = None →
            result = Raise (mkException KeyError "'message'"))
       ∧ (∀ choice rest msg,
            choices d = Some (choice :: rest) → message choice = Some msg →
            message_content msg = None →
            result = Raise (mkException KeyError "'content'"))).
Proof.
  intros Hl answer result. subst answer result. split; [|split].
  - intros e He. unfold generate_document. rewrite Hl. simpl negb. cbv iota.
    run_monad. by rewrite He.
  - intros r e Hr Hst Hd.
    rewrite (generate_document_loaded _ _ _ _ _ _ _ r Hl Hr).
    by rewrite bool_decide_eq_true_2, Hd.
  - intros r d Hr Hst Hd.
    rewrite (generate_document_loaded _ _ _ _ _ _ _ r Hl Hr).
    rewrite bool_decide_eq_true_2, Hd by done.
    unfold first_choice_content. split; [|split; [|split]].
    + by intros ->.
    + by intros ->.
    + intros choice rest -> Hm. simpl. by rewrite Hm.
    + intros choice rest msg -> Hm Hc. simpl. rewrite Hm. simpl.
      by rewrite Hc.
Qed.

Lemma generate_document_unexpected_answers_witness :
  fst (generate_document loaded_client
         (λ _, Responds (mkResponse 200 "{}" (Ok (mkCompletionData (Some [])))))
         "A command line tool" PRD None 3000 0.3%float)
  = Raise (mkException IndexError "list index out of range").
Proof.
  destruct (generate_document_unexpected_answers loaded_client
              (λ _, Responds (mkResponse 200 "{}"
                                (Ok (mkCompletionData (Some [])))))
              "A command line tool" PRD None 3000 0.3%float eq_refl)
    as (_ & _ & H).
  destruct (H _ _ eq_refl eq_refl eq_refl) as (_ & Hempty & _).
  exact (Hempty eq_refl).
Defined.

(** ** Trimming, again *)

Lemma lstrip_empty_iff (s : string) :
  lstrip_with isspace s = "" ↔ all_space s.
Proof.
  induction s as [|c s IH]; [done|]. simpl.
  destruct (isspace c) eqn:Hc.
  - rewrite IH. tauto.
  - split; [done|]. intros [H _]. congruence.
Qed.

Lemma rstrip_empty_iff (s : string) :
  rstrip_with isspace s = "" ↔ all_space s.
Proof.
  induction s as [|c s IH]; [done|]. simpl.
  destruct (rstrip_with isspace s) as [|y r] eqn:Hr.
  - destruct (isspace c) eqn:Hc.
    + split; [|done]. intros _. split; [done|]. by apply IH.
    + split; [done|]. intros [H _]. congruence.
  - split; [done|]. intros [_ H]. by apply IH in H.
Qed.

Lemma all_space_last (s : string) (c : ascii) :
  all_space s → last_char s = Some c → isspace c = true.
Proof.
  induction s as [|x s IH]; [done|]. intros [Hx Hs].
  rewrite last_char_cons. destruct s; [by intros [= <-] | by apply IH].
Qed.

Lemma last_char_is_Some (x : ascii) (s : string) :
  is_Some (last_char (String x s)).
Proof.
  revert x. induction s as [|y s IH]; intros x; [by eexists|].
  rewrite last_char_cons. apply IH.
Qed.

(** [strip] gives the empty string for the strings of white space, and for
    no other. *)
Lemma strip_empty_iff (s : string) : strip s = "" ↔ all_space s.
Proof.
  unfold strip. rewrite <- rstrip_empty_iff. split.
  - intros H. apply lstrip_empty_iff in H.
    destruct (rstrip_with isspace s) as [|x r] eqn:Hr; [done|].
    destruct (last_char_is_Some x r) as [c Hc].
    pose proof (all_space_last _ _ H Hc) as Hsp.
    rewrite <- Hr in Hc. apply rstrip_with_last in Hc. congruence.
  - by intros ->.
Qed.

(** X14. On a loaded client, a completion of status 200 whose content is
    white space only, or empty, is returned as the empty text, without an
    error; and the empty text is returned for no other content. *)
Theorem blank_completion_is_empty self post text dt pn
    (max_length : Z) (temperature : float) r d generated_text :
  is_loaded self = true →
  post (completion_payload self (_get_generation_prompt self text dt pn)
          max_length temperature) = Responds r →
  status_code r = 200%Z → json r = Ok d →
  first_choice_content d = Ok generated_text →
  fst (generate_document self post text dt pn max_length temperature) = Ok ""
  ↔ all_space generated_text.
Proof.
  intros Hl Hr Hst Hd Hc.
  rewrite (generate_document_loaded _ _ _ _ _ _ _ r Hl Hr).
  rewrite bool_decide_eq_true_2, Hd, Hc by done.
  rewrite <- strip_empty_iff. split; [by intros [= ->] | by intros ->].
Qed.

Lemma blank_completion_is_empty_witness :
  fst (generate_document loaded_client (λ _, completes (" " ++ nl ++ " "))
         "A command line tool" PRD None 3000 0.3%float) = Ok "".
Proof.
  apply (blank_completion_is_empty loaded_client
           (λ _, completes (" " ++ nl ++ " ")) "A command line tool" PRD None
           3000 0.3%float _ _ (" " ++ nl ++ " ") eq_refl eq_refl eq_refl
           eq_refl eq_refl).
  by vm_compute.
Defined.

(** ** The HTTP endpoints *)

(** X15. The handler of [POST /generate] refuses a request with the detail
    "Input text cannot be empty" exactly when its input text is empty or
    white space only, and with the detail "Input text too long" exactly when
    its input text has a character that is no white space and more than
    10,000 characters: a long text of white space is refused as empty. *)
Theorem refusal_details request svc w :
  (api_generate_documents request svc w
   = (Raise (http_exception 400 "Input text cannot be empty"), refusal_trace)
   ↔ all_space (input_text request))
  ∧ (api_generate_documents request svc w
     = (Raise (http_exception 400 "Input text too long (max 10,000 characters)"),
        refusal_trace)
     ↔ ¬ all_space (input_text request)
       ∧ (10000 < len (input_text request))%Z).
Proof.
  destruct (api_generate_documents_eq request svc w)
    as (response & tr & _ & ->).
  rewrite <- strip_empty_iff.
  case_bool_decide as Hs; [|case_bool_decide as Hl].
  - split; [done|]. split; [done | tauto].
  - split; [|done]. split; [done|]. intros H. by apply Hs in H.
  - split; [split; [done|]; intros H; by apply Hs in H|].
    split; [done|]. intros [_ H]. by apply Hl in H.
Qed.

Lemma refusal_details_witness :
  api_generate_documents
    (mkGenerationRequest (repeat_char " " (Z.to_nat 10001)) [PRD] None None)
    example_service flaky_world
  = (Raise (http_exception 400 "Input text cannot be empty"), refusal_trace).
Proof.
  apply (refusal_details
           (mkGenerationRequest (repeat_char " " (Z.to_nat 10001)) [PRD]
              None None) example_service flaky_world).
  apply strip_empty_iff. by vm_compute.
Defined.

Lemma not_floats_refused as_float (d : gmap string Json) key v :
  d !! key = Some v → as_float v = None → not_floats as_float d ≠ [].
Proof.
  intros Hk Hv Hnil.
  assert (In (key, v) (not_floats as_float d)) as Hin.
  { unfold not_floats. apply filter_In. split.
    - apply list_elem_of_In. by apply elem_of_map_to_list.
    - simpl. rewrite Hv. rewrite bool_decide_eq_false_2; [done|].
      by intros [? ?]. }
  by rewrite Hnil in Hin.
Qed.

(** X16. The handler of [GET /health] never raises. For a client that is
    not loaded it reports [model_not_loaded], without memory usage. For a
    loaded client it hands the placeholder of [get_memory_usage] to a field
    of floats: it reports [healthy] when each value is taken as a float,
    and when one is refused, as the text ["LM Studio"] is unless it counts
    as a number, it reports [error] with [model_loaded] false and without
    memory usage. *)
Theorem health_check_reports as_float verr llm_svc :
  ∃ response tr,
    health_check as_float verr llm_svc = (Ok response, tr)
    ∧ (is_loaded llm_svc = false →
       response
       = mkHealthResponse "model_not_loaded"
           "DocuMCP is running but model is not loaded" false None
       ∧ tr = [])
    ∧ (is_loaded llm_svc = true →
       not_floats as_float (get_memory_usage llm_svc) = [] →
       response
       = mkHealthResponse "healthy" "DocuMCP is running and model is loaded"
           true (Some (omap as_float (get_memory_usage llm_svc))))
    ∧ (is_loaded llm_svc = true →
       as_float (JStr "LM Studio") = None →
       health_status response = "error"
       ∧ health_model_loaded response = false
       ∧ health_memory_usage response = None
       ∧ tr = [LogError "Error in health check"])
    ∧ (is_loaded llm_svc = true →
       not_floats as_float (get_memory_usage llm_svc) ≠ [] →
       health_status response = "error"
       ∧ health_model_loaded response = false
       ∧ health_memory_usage response = None
       ∧ tr = [LogError "Error in health check"]).
Proof.
  unfold health_check. destruct (is_loaded llm_svc) eqn:Hl.
  - unfold new_HealthResponse at 1.
    destruct (not_floats as_float (get_memory_usage llm_svc)) as [|kv rest]
      eqn:Hnf; unfold try_except, lift.
    + eexists _, _. split; [reflexivity|].
      split; [intros H; discriminate H|].
      split; [intros _ _; reflexivity|].
      split.
      * intros _ Hno. exfalso.
        apply (not_floats_refused as_float (get_memory_usage llm_svc)
                 "service" (JStr "LM Studio"));
          [reflexivity | exact Hno | exact Hnf].
      * intros _ Hne. exfalso. by apply Hne.
    + eexists _, _. split; [reflexivity|].
      split; [intros H; discriminate H|].
      split; [intros _ H; discriminate H|].
      split; intros _ _; repeat split; reflexivity.
  - unfold new_HealthResponse, try_except, lift.
    eexists _, _. split; [reflexivity|].
    split; [intros _; split; reflexivity|].
    split; [intros H; discriminate H|].
    split; intros H; discriminate H.
Qed.

Lemma health_check_reports_witness :
  ∃ response tr,
    health_check example_as_float example_validation_error_str loaded_client
    = (Ok response, tr)
    ∧ health_status response = "error"
    ∧ health_model_loaded response = false.
Proof.
  destruct (health_check_reports example_as_float
              example_validation_error_str loaded_client)
    as (response & tr & Heq & _ & _ & H & _).
  exists response, tr. split; [exact Heq|].
  destruct (H eq_refl eq_refl) as (H1 & H2 & _). by split.
Defined.

(** X17. The handler of [GET /metrics] never raises and has no ["error"]
    entry; its ["model_loaded"] is 1 for a loaded client and 0 for another;
    and its three memory figures are 0 for every client, since the
    placeholder of [get_memory_usage] has none of the keys they are read
    from. *)
Theorem metrics_reports llm_svc :
  ∃ m,
    metrics llm_svc = (Ok m, [])
    ∧ m !! "model_loaded" = Some (JInt (if is_loaded llm_svc then 1 else 0))
    ∧ m !! "model_info" = Some (json_of_str_dict (get_model_info llm_svc))
    ∧ m !! "memory_allocated_gb" = Some (JInt 0)
    ∧ m !! "memory_reserved_gb" = Some (JInt 0)
    ∧ m !! "memory_max_allocated_gb" = Some (JInt 0)
    ∧ m !! "error" = None.
Proof.
  unfold metrics. run_monad. eexists. split; [reflexivity|].
  destruct (is_loaded llm_svc); repeat split; reflexivity.
Qed.

(** ** Startup *)

Lemma posted_bodies self w request :
  is_loaded (llm_service self) = true →
  posted (snd (generate_documents self w request))
  = task_payload self request <$> document_types request.
Proof.
  intros Hl.
  destruct (generate_documents_spec self w request) as (tr & Heq & Hp).
  rewrite Heq. simpl. rewrite Hp.
  rewrite (posted_tasks _ _ (λ dt, [task_payload self request dt])).
  - apply concat_singletons.
  - intros slot dt. unfold task. by apply single_document_payload.
Qed.

(** X18. When [initialize_services] of the HTTP module raises, the client
    global holds a client that is not loaded and the document service
    global is as before; from the globals of a fresh module, the dependency
    of [POST /generate] then raises status 503, while that of [GET /health]
    resolves and the health handler reports [model_not_loaded]. *)
Theorem api_failed_startup g answer e :
  fst (fst (api_initialize_services g answer)) = Raise e →
  global_llm_service (snd (api_initialize_services g answer))
  = Some default_LMStudioService
  ∧ global_document_service (snd (api_initialize_services g answer))
    = global_document_service g
  ∧ (global_document_service g = None →
     get_document_service
       (global_document_service (snd (api_initialize_services g answer)))
     = Raise (http_exception 503 "Document service not initialized")
     ∧ ∃ llm,
         get_llm_service
           (global_llm_service (snd (api_initialize_services g answer)))
         = Ok llm
         ∧ ∀ as_float verr,
             health_check as_float verr llm
             = (Ok (mkHealthResponse "model_not_loaded"
                      "DocuMCP is running but model is not loaded" false None),
                [])).
Proof.
  unfold api_initialize_services.
  pose proof (initialize_cases default_LMStudioService answer) as H.
  destruct (listed answer) as [[|first rest]|].
  - destruct H as (e' & tr & ->). simpl. intros _.
    split; [done|]. split; [done|]. intros ->. split; [done|].
    eexists. split; [reflexivity|]. reflexivity.
  - destruct H as (tr & ->). simpl. intros H. discriminate H.
  - destruct H as (e' & tr & ->). simpl. intros _.
    split; [done|]. split; [done|]. intros ->. split; [done|].
    eexists. split; [reflexivity|]. reflexivity.
Qed.

Lemma api_failed_startup_witness :
  get_document_service
    (global_document_service
       (snd (api_initialize_services no_services
               (lists_models 503 ["local-model"]))))
  = Raise (http_exception 503 "Document service not initialized").
Proof.
  destruct (api_failed_startup no_services (lists_models 503 ["local-model"])
              _ eq_refl) as (_ & _ & H).
  exact (proj1 (H eq_refl)).
Defined.

(** X19. When [initialize_services] of the tool server raises on a fresh
    module, every tool call afterwards, whatever its name and arguments, is
    answered with the one text of the not-initialized error, and nothing is
    asked of the upstream. *)
Theorem mcp_failed_startup answer e format_2f verr w name arguments :
  fst (fst (mcp_initialize_services no_services answer)) = Raise e →
  handle_call_tool format_2f verr
    (global_document_service (snd (mcp_initialize_services no_services answer)))
    w name arguments
  = (Ok [text_content "Error: Document service not initialized"], []).
Proof.
  unfold mcp_initialize_services.
  pose proof (initialize_cases default_LMStudioService answer) as H.
  destruct (listed answer) as [[|first rest]|].
  - destruct H as (e' & tr & ->). done.
  - destruct H as (tr & ->). simpl. intros H. discriminate H.
  - destruct H as (e' & tr & ->). done.
Qed.

Lemma mcp_failed_startup_witness :
  handle_call_tool example_format_2f example_validation_error_str
    (global_document_service
       (snd (mcp_initialize_services no_services
               (Fails (mkException ConnectError "connection refused")))))
    flaky_world "generate_prd" mixed_arguments
  = (Ok [text_content "Error: Document service not initialized"], []).
Proof.
  exact (mcp_failed_startup
           (Fails (mkException ConnectError "connection refused")) _
           example_format_2f example_validation_error_str flaky_world
           "generate_prd" mixed_arguments eq_refl).
Defined.

(** X20. When [initialize_services] returns, in the HTTP module as in the
    tool server, the two globals hold one and the same client, which is
    loaded, and every request that the document service posts from then on
    names a model that the models endpoint listed. *)
Theorem started_service_uses_listed_model g answer :
  (fst (fst (api_initialize_services g answer)) = Ok ()
   ∨ fst (fst (mcp_initialize_services g answer)) = Ok ()) →
  ∃ llm ids,
    snd (api_initialize_services g answer)
    = mkGlobals (Some llm) (Some (mkDocumentGenerationService llm))
    ∧ snd (mcp_initialize_services g answer)
      = mkGlobals (Some llm) (Some (mkDocumentGenerationService llm))
    ∧ is_loaded llm = true
    ∧ listed answer = Some ids
    ∧ ∀ w request payload,
        payload ∈ posted (snd (generate_documents
                                 (mkDocumentGenerationService llm) w request)) →
        model payload ∈ ids.
Proof.
  unfold api_initialize_services, mcp_initialize_services.
  pose proof (initialize_cases default_LMStudioService answer) as H.
  destruct (listed answer) as [[|first rest]|].
  - destruct H as (e' & tr & ->). simpl. intros [H|H]; discriminate H.
  - destruct H as (tr & ->). simpl. intros _.
    eexists _, (first :: rest). split; [reflexivity|]. split; [reflexivity|].
    split; [reflexivity|]. split; [reflexivity|].
    intros w request payload. rewrite posted_bodies by reflexivity.
    intros (dt & -> & _)%list_elem_of_fmap. simpl.
    case_bool_decide; [done | set_solver].
  - destruct H as (e' & tr & ->). simpl. intros [H|H]; discriminate H.
Qed.

Lemma started_service_uses_listed_model_witness :
  ∃ llm ids,
    snd (mcp_initialize_services no_services
           (lists_models 200 ["mistral-7b"; "qwen-2"]))
    = mkGlobals (Some llm) (Some (mkDocumentGenerationService llm))
    ∧ is_loaded llm = true
    ∧ listed (lists_models 200 ["mistral-7b"; "qwen-2"]) = Some ids
    ∧ ∀ w request payload,
        payload ∈ posted (snd (generate_documents
                                 (mkDocumentGenerationService llm) w request)) →
        model payload ∈ ids.
Proof.
  destruct (started_service_uses_listed_model no_services
              (lists_models 200 ["mistral-7b"; "qwen-2"]) (or_intror eq_refl))
    as (llm & ids & _ & H2 & H3 & H4 & H5).
  by exists llm, ids.
Defined.

(** ** The tool server, beyond the claims *)

Lemma new_GenerationRequest_valid verr text types name :
  invalid_fields text name = [] →
  ∃ request,
    new_GenerationRequest verr text types name = Ok request
    ∧ document_types request = types.
Proof.
  unfold invalid_fields, new_GenerationRequest.
  destruct text; try done; destruct name; try done; intros _; by eexists.
Qed.

Lemma generate_documents_returns self w request :
  ∃ response tr,
    generate_documents self w request
    = (Ok response, LogInfo "Starting document generation" :: tr)
    ∧ document_type <$> documents response = document_types request.
Proof.
  destruct (generate_documents_spec self w request) as (tr & Heq & _).
  destruct (generate_documents_starts self w request) as (tr' & Hst).
  rewrite Heq in Hst. simpl in Hst. subst tr.
  eexists _, tr'. split; [exact Heq|]. simpl.
  apply list_eq. intros i. rewrite list_lookup_fmap, list_lookup_imap.
  destruct (document_types request !! i) as [dt|]; [|done].
  simpl. f_equal. apply slot_document_type.
Qed.

Lemma single_tool_reply verr service w arguments doc_type :
  invalid_fields (arguments_get arguments "input_text" (JStr ""))
    (arguments_get arguments "project_name" JNull) = [] →
  ∃ request response tr doc,
    new_GenerationRequest verr (arguments_get arguments "input_text" (JStr ""))
      [doc_type] (arguments_get arguments "project_name" JNull) = Ok request
    ∧ generate_documents service w request
      = (Ok response, LogInfo "Starting document generation" :: tr)
    ∧ documents response = [doc]
    ∧ document_type doc = doc_type
    ∧ _handle_generate_single_document verr service w arguments
        doc_type
      = (Ok [text_content (content doc)],
         LogInfo "Starting document generation" :: tr).
Proof.
  intros Hv.
  destruct (new_GenerationRequest_valid verr _ [doc_type] _ Hv)
    as (request & Hreq & Hty).
  destruct (generate_documents_returns service w request)
    as (response & tr & Hgen & Hdocs).
  rewrite Hty in Hdocs.
  destruct (documents response) as [|doc [|doc' docs]] eqn:Hd; try done.
  injection Hdocs as Hdoc.
  exists request, response, tr, doc.
  split; [exact Hreq|]. split; [exact Hgen|]. split; [done|].
  split; [exact Hdoc|].
  unfold _handle_generate_single_document. run_monad.
  rewrite Hreq, Hgen. simpl. rewrite Hd. simpl. by rewrite ?app_nil_r.
Qed.

(** X21. A tool of one kind, called with an input text that is a string and
    a project name that is a string or absent, replies with exactly one
    text, the content of the one document of the response: the generated
    text, or the text of the error document when the generation failed;
    it never replies "No document generated". *)
Theorem single_tool_replies_with_the_document verr service w
    arguments doc_type :
  invalid_fields (arguments_get arguments "input_text" (JStr ""))
    (arguments_get arguments "project_name" JNull) = [] →
  ∃ request response tr doc,
    new_GenerationRequest verr (arguments_get arguments "input_text" (JStr ""))
      [doc_type] (arguments_get arguments "project_name" JNull) = Ok request
    ∧ generate_documents service w request = (Ok response, tr)
    ∧ documents response = [doc]
    ∧ document_type doc = doc_type
    ∧ _handle_generate_single_document verr service w arguments
        doc_type
      = (Ok [text_content (content doc)], tr).
Proof.
  intros Hv.
  destruct (single_tool_reply verr service w arguments doc_type Hv)
    as (request & response & tr & doc & H1 & H2 & H3 & H4 & H5).
  by exists request, response,
    (LogInfo "Starting document generation" :: tr), doc.
Qed.

Lemma single_tool_replies_with_the_document_witness :
  fst (_handle_generate_single_document example_validation_error_str
         example_service failing_world mixed_arguments README)
  = Ok [text_content
          ("# Error" ++ nl ++ nl
           ++ "Failed to generate readme: connection reset")].
Proof.
  destruct (single_tool_replies_with_the_document
              example_validation_error_str example_service failing_world
              mixed_arguments README eq_refl)
    as (request & response & tr & doc & H1 & H2 & H3 & H4 & H5).
  rewrite H5. simpl. injection H1 as <-. vm_compute in H2.
  injection H2 as <- _. vm_compute in H3. by injection H3 as <-.
Defined.

(** X22. The names that [handle_list_tools] lists are the names that
    [handle_call_tool] dispatches: a call of a name that is not listed is
    answered "Unknown tool" without a call of the orchestrator, and a call
    of a listed name, with an input text that is a string, a project name
    that is a string or absent and a [document_types] that can be iterated,
    calls the orchestrator. *)
Theorem listed_tools_are_dispatched format_2f verr service w name arguments
    items :
  (name ∉ tool_name <$> handle_list_tools →
   dispatch_tool format_2f verr service w name arguments
   = (Ok [text_content ("Unknown tool: " ++ name)], []))
  ∧ (name ∈ tool_name <$> handle_list_tools →
     invalid_fields (arguments_get arguments "input_text" (JStr ""))
       (arguments_get arguments "project_name" JNull) = [] →
     iterate (arguments_get arguments "document_types" default_document_types)
     = Ok items →
     ∃ texts tr,
       dispatch_tool format_2f verr service w name arguments
       = (Ok texts, LogInfo "Starting document generation" :: tr)).
Proof.
  split.
  - intros Hn. by apply dispatch_unknown_tool.
  - intros Hin Hv Hit.
    assert (name ∈ tool_names) as Hin' by exact Hin.
    unfold tool_names in Hin'.
    repeat (apply elem_of_cons in Hin' as [->|Hin']);
      [| | | | by apply not_elem_of_nil in Hin'].
    + unfold dispatch_tool. simpl.
      destruct (new_GenerationRequest_valid verr _
                  (convert_document_types items) _ Hv) as (request & Hreq & _).
      destruct (generate_documents_returns service w request)
        as (response & tr & Hgen & _).
      unfold _handle_generate_documents. run_monad.
      rewrite Hit. simpl. rewrite Hreq. simpl. rewrite Hgen. simpl.
      by eexists _, _.
    + destruct (single_tool_reply verr service w arguments PRD Hv)
        as (? & ? & tr & doc & _ & _ & _ & _ & H).
      unfold dispatch_tool. simpl. rewrite H. by eexists _, _.
    + destruct (single_tool_reply verr service w arguments README Hv)
        as (? & ? & tr & doc & _ & _ & _ & _ & H).
      unfold dispatch_tool. simpl. rewrite H. by eexists _, _.
    + destruct (single_tool_reply verr service w arguments
                  WHAT_IS_THIS Hv)
        as (? & ? & tr & doc & _ & _ & _ & _ & H).
      unfold dispatch_tool. simpl. rewrite H. by eexists _, _.
Qed.

Lemma listed_tools_are_dispatched_witness :
  ∃ texts tr,
    dispatch_tool example_format_2f example_validation_error_str
      example_service flaky_world "generate_overview" mixed_arguments
    = (Ok texts, LogInfo "Starting document generation" :: tr).
Proof.
  destruct (listed_tools_are_dispatched example_format_2f
              example_validation_error_str example_service flaky_world
              "generate_overview" mixed_arguments mixed_items) as [_ H].
  apply H; [|reflexivity|reflexivity].
  unfold handle_list_tools. simpl. set_solver.
Defined.

Lemma schema_enum_eq :
  schema_enum = [JStr "prd"; JStr "what_is_this"; JStr "readme"].
Proof. reflexivity. Qed.

(** X23. The schema that [handle_list_tools] declares for [document_types]
    agrees with the handler of the combined tool: a list whose entries are
    all in the [enum] of the schema is converted entry by entry, nothing is
    dropped; and the [default] of the schema is the list the handler takes
    when the argument is absent. *)
Theorem schema_conforming_types_are_kept (items : list Json) :
  Forall (λ item, item ∈ schema_enum) items →
  (JStr ∘ value) <$> convert_document_types items = items
  ∧ length (convert_document_types items) = length items
  ∧ (document_types_schema ≫= json_field "default")
    = Some default_document_types.
Proof.
  intros Hall.
  assert ((JStr ∘ value) <$> convert_document_types items = items) as Heq.
  { induction Hall as [|item items Hin _ IH]; [done|].
    simpl convert_document_types. rewrite fmap_app, IH. f_equal.
    rewrite schema_enum_eq in Hin.
    repeat (apply elem_of_cons in Hin as [->|Hin]);
      [done | done | done | by apply not_elem_of_nil in Hin]. }
  split; [exact Heq|]. split; [|reflexivity].
  rewrite <- Heq at 2. by rewrite length_fmap.
Qed.

Lemma schema_conforming_types_are_kept_witness :
  (JStr ∘ value) <$> convert_document_types [JStr "readme"; JStr "prd"]
  = [JStr "readme"; JStr "prd"].
Proof.
  apply (schema_conforming_types_are_kept [JStr "readme"; JStr "prd"]).
  rewrite schema_enum_eq. repeat constructor.
Defined.

Lemma convert_characters (s : string) :
  convert_document_types
    ((λ c, JStr (String c "")) <$> String.list_ascii_of_string s) = [].
Proof.
  induction s as [|c s IH]; [done|].
  simpl String.list_ascii_of_string. rewrite fmap_cons.
  simpl convert_document_types. rewrite IH. unfold convert_document_type.
  by repeat case_bool_decide.
Qed.

(** X24. When the [document_types] argument of the combined tool is a
    string instead of a list, also the name of a kind such as ["prd"], the
    handler iterates its characters, none of which is a kind: the
    orchestrator is called for no kind, nothing is posted, and the reply is
    the summary alone. *)
Theorem string_document_types_yield_nothing format_2f verr service w
    arguments s :
  arguments !! "document_types" = Some (JStr s) →
  invalid_fields (arguments_get arguments "input_text" (JStr ""))
    (arguments_get arguments "project_name" JNull) = [] →
  ∃ response tr,
    _handle_generate_documents format_2f verr service w arguments
    = (Ok [render_summary format_2f response], tr)
    ∧ documents response = []
    ∧ posted tr = [].
Proof.
  intros Hargs Hv.
  destruct (new_GenerationRequest_valid verr _ [] _ Hv)
    as (request & Hreq & Hty).
  unfold _handle_generate_documents, arguments_get in *.
  rewrite Hargs. simpl.
  rewrite convert_characters. run_monad. rewrite Hreq. simpl.
  unfold generate_documents, gather. rewrite Hty. simpl.
  by eexists _, _.
Qed.

Lemma string_document_types_yield_nothing_witness :
  ∃ response tr,
    _handle_generate_documents example_format_2f example_validation_error_str
      example_service flaky_world
      (<["document_types" := JStr "prd"]> mixed_arguments)
    = (Ok [render_summary example_format_2f response], tr)
    ∧ documents response = []
    ∧ posted tr = [].
Proof.
  exact (string_document_types_yield_nothing example_format_2f
           example_validation_error_str example_service flaky_world
           (<["document_types" := JStr "prd"]> mixed_arguments) "prd"
           eq_refl eq_refl).
Defined.

(** X25. When the [document_types] argument of the combined tool is a
    value that cannot be iterated ([None], a boolean or a number), the tool
    call is answered with the one text ["Error: "] followed by the text of
    the [TypeError], whatever the other arguments are, and the orchestrator
    is not called. *)
Theorem non_iterable_document_types_reply format_2f verr service w
    arguments j :
  arguments !! "document_types" = Some j →
  match j with JArr _ | JStr _ | JObj _ => False | _ => True end →
  handle_call_tool format_2f verr (Some service) w "generate_documents"
    arguments
  = (Ok [text_content
           ("Error: '" ++ type_name j ++ "' object is not iterable")],
     [LogError "Error in tool call"]).
Proof.
  intros Hargs Hj.
  unfold handle_call_tool, dispatch_tool. simpl.
  unfold _handle_generate_documents, arguments_get in *.
  rewrite Hargs. simpl.
  destruct j; done.
Qed.

Lemma non_iterable_document_types_reply_witness :
  handle_call_tool example_format_2f example_validation_error_str
    (Some example_service) flaky_world "generate_documents"
    (<["document_types" := JNull]> mixed_arguments)
  = (Ok [text_content "Error: 'NoneType' object is not iterable"],
     [LogError "Error in tool call"]).
Proof.
  exact (non_iterable_document_types_reply example_format_2f
           example_validation_error_str example_service flaky_world
           (<["document_types" := JNull]> mixed_arguments) JNull eq_refl I).
Defined.

(** X26. When the combined tool is called without [document_types], with
    an input text that is a string and a project name that is a string or
    absent, the orchestrator is called and the reply is the summary followed
    by the three documents, of the kinds requirements document, overview
    and readme in this order. *)
Theorem absent_document_types_mean_all format_2f verr service w arguments :
  arguments !! "document_types" = None →
  invalid_fields (arguments_get arguments "input_text" (JStr ""))
    (arguments_get arguments "project_name" JNull) = [] →
  ∃ response tr,
    _handle_generate_documents format_2f verr service w arguments
    = (Ok (render_summary format_2f response
           :: (render_document <$> documents response)), tr)
    ∧ document_type <$> documents response = [PRD; WHAT_IS_THIS; README].
Proof.
  intros Hargs Hv.
  destruct (new_GenerationRequest_valid verr _ [PRD; WHAT_IS_THIS; README] _ Hv)
    as (request & Hreq & Hty).
  destruct (generate_documents_returns service w request)
    as (response & tr & Hgen & Hdocs).
  exists response, (LogInfo "Starting document generation" :: tr).
  split; [|by rewrite Hdocs].
  unfold _handle_generate_documents, arguments_get in *.
  rewrite Hargs. simpl.
  run_monad. rewrite Hreq. simpl. rewrite Hgen. simpl.
  by rewrite ?app_nil_r.
Qed.

Lemma absent_document_types_mean_all_witness :
  ∃ response tr,
    _handle_generate_documents example_format_2f example_validation_error_str
      example_service flaky_world
      (<["input_text" := JStr "A command line tool"]> ∅)
    = (Ok (render_summary example_format_2f response
           :: (render_document <$> documents response)), tr)
    ∧ document_type <$> documents response = [PRD; WHAT_IS_THIS; README].
Proof.
  exact (absent_document_types_mean_all example_format_2f
           example_validation_error_str example_service flaky_world
           (<["input_text" := JStr "A command line tool"]> ∅)
           eq_refl eq_refl).
Defined.

(** X27. [handle_get_prompt] returns for the names that
    [handle_list_prompts] lists and raises the [ValueError] of an unknown
    prompt for every other name. When it returns, the result has one
    message, of the user, whose text quotes the project name, or
    ["My Project"] when the argument is absent, and then the project
    description, or nothing when the argument is absent, although the
    listing declares it required. *)
Theorem get_prompt_follows_the_listing (name : string)
    (arguments : gmap string string) :
  (name ∉ prompt_name <$> handle_list_prompts →
   handle_get_prompt name arguments
   = PromptValueError ("Unknown prompt: " ++ name))
  ∧ (name ∈ prompt_name <$> handle_list_prompts →
     ∃ description before middle after,
       handle_get_prompt name arguments
       = PromptResult
           (mkGetPromptResult description
              [mkPromptMessage "user"
                 (text_content
                    (before ++ "'"
                     ++ default "My Project" (arguments !! "project_name")
                     ++ "'" ++ middle
                     ++ default "" (arguments !! "project_description")
                     ++ nl ++ nl ++ after))])).
Proof.
  split.
  - intros Hn. unfold handle_get_prompt.
    repeat case_bool_decide; subst; try done; exfalso; apply Hn;
      unfold handle_list_prompts; simpl; set_solver.
  - intros Hin. unfold handle_list_prompts in Hin. simpl in Hin.
    repeat (apply elem_of_cons in Hin as [->|Hin]);
      [| | by apply not_elem_of_nil in Hin].
    + eexists _, "Please generate comprehensive documentation for my project ",
        ". Here's the project description: ", _.
      unfold handle_get_prompt. simpl. reflexivity.
    + eexists _, "Please generate a Product Requirements Document for ",
        ". Project description: ", _.
      unfold handle_get_prompt. simpl. reflexivity.
Qed.

Lemma get_prompt_follows_the_listing_witness :
  handle_get_prompt "readme_template" ∅
  = PromptValueError "Unknown prompt: readme_template".
Proof.
  apply (get_prompt_follows_the_listing "readme_template" ∅).
  unfold handle_list_prompts. simpl. intros H.
  repeat (apply elem_of_cons in H as [H|H]; [discriminate H|]).
  by apply not_elem_of_nil in H.
Defined.
